(** * Verification of the pattern-matching prediction engine

    Shallow embedding of [src/pattern_matcher.py] (class [PatternMatcher]):
    [find_matching_patterns], [get_best_prediction] and [predict].

    Python values are modelled as follows.
    - [str] is [string]; a label is compared by exact equality, so the
      byte-wise equality of [string] is the equality of the (UTF-8 encoded)
      Python strings, and the delimiter [","] is a single byte that never
      occurs inside a multi-byte sequence.
    - [List[str]] is [list string].
    - A [dict] is an association list in iteration (insertion) order: the
      code iterates over [patterns.items()] and over the tally, and the
      result depends on that order.
    - Python's unbounded [int] is [Z] for the tally; lengths and offsets,
      which are never negative here, are [nat]. *)

From Stdlib Require Import ZArith Lia Ascii String.
From stdpp Require Import base list strings sorting.

(** ** Python primitives used by the matcher *)

Module Py.

(** [s.split(sep)] for a one-character separator: the pieces between the
    occurrences of [sep]; never the empty list ([''.split(',') == ['']]). *)
Fixpoint split (sep : ascii) (s : string) : list string :=
  match s with
  | EmptyString => [EmptyString]
  | String c s' =>
      if Ascii.eqb c sep then EmptyString :: split sep s'
      else match split sep s' with
           | w :: ws => String c w :: ws
           | [] => [String c EmptyString]
           end
  end.

(** [sep.join(l)]. *)
Fixpoint join (sep : string) (l : list string) : string :=
  match l with
  | [] => EmptyString
  | x :: l' =>
      match l' with
      | [] => x
      | _ :: _ => x +:+ sep +:+ join sep l'
      end
  end.

(** [l[i:j]] for non-negative [i], [j]: slicing clamps to the list and
    never raises. *)
Definition slice {A} (l : list A) (i j : nat) : list A :=
  take (j - i) (drop i l).

(** [range(n)]. *)
Definition range (n : nat) : list nat := seq 0 n.

(** Truthiness of a container: [not c] holds exactly for the empty one. *)
Definition truthy {A} (l : list A) : bool :=
  match l with [] => false | _ :: _ => true end.

(** A [dict] with string keys, as the list of its items in insertion order. *)
Definition dict (V : Type) : Type := list (string * V).

(** [d.get(k, dflt)]. *)
Fixpoint dict_get {V} (d : dict V) (k : string) (dflt : V) : V :=
  match d with
  | [] => dflt
  | (k', v) :: d' => if String.eqb k' k then v else dict_get d' k dflt
  end.

(** [d[k] = v]: an existing key keeps its position, a new key goes last. *)
Fixpoint dict_set {V} (d : dict V) (k : string) (v : V) : dict V :=
  match d with
  | [] => [(k, v)]
  | (k', v') :: d' =>
      if String.eqb k' k then (k', v) :: d' else (k', v') :: dict_set d' k v
  end.

(** The invariant of a Python [dict]: its keys are pairwise distinct. *)
Definition dict_wf {V} (d : dict V) : Prop := NoDup (d.*1).

End Py.

(** ** The matcher, as pure functions of its two arguments *)

(** The body of the inner loop of [find_matching_patterns]:
    [segment = results[i:i + pattern_len]; if segment == pattern:
    matches.append(prediction)]. *)
Definition check_segment (results pattern : list string) (prediction : string)
    (matches : list string) (i : nat) : list string :=
  let segment := Py.slice results i (i + length pattern) in
  if bool_decide (segment = pattern) then matches ++ [prediction] else matches.

(** The body of the outer loop: one [(pattern_str, prediction)] item. *)
Definition scan_pattern (results : list string) (matches : list string)
    (item : string * string) : list string :=
  let '(pattern_str, prediction) := item in
  let pattern := Py.split ","%char pattern_str in
  let pattern_len := length pattern in
  if (length results <? pattern_len)%nat then matches
  else
    fold_left (check_segment results pattern prediction)
      (Py.range (length results - pattern_len + 1)) matches.

Definition find_matching_patterns (patterns : Py.dict string)
    (results : list string) : list string :=
  if negb (Py.truthy patterns) || negb (Py.truthy results) then []
  else
    let matches := [] in
    let results_str := Py.join "," results in
    fold_left (scan_pattern results) patterns matches.

(** The first loop of [get_best_prediction]:
    [prediction_counts[pred] = prediction_counts.get(pred, 0) + 1]. *)
Definition tally_step (prediction_counts : Py.dict Z) (pred : string)
    : Py.dict Z :=
  Py.dict_set prediction_counts pred
    (Py.dict_get prediction_counts pred 0 + 1)%Z.

(** The second loop: the local variables [(best_prediction, highest_count)]
    after one [(pred, count)] item. *)
Definition best_step (st : option string * Z) (item : string * Z)
    : option string * Z :=
  let '(best_prediction, highest_count) := st in
  let '(pred, count) := item in
  if (count >? highest_count)%Z then (Some pred, count)
  else (best_prediction, highest_count).

Definition get_best_prediction (matching_predictions : list string)
    : option string :=
  if negb (Py.truthy matching_predictions) then None
  else
    let prediction_counts := fold_left tally_step matching_predictions [] in
    let '(best_prediction, highest_count) :=
      fold_left best_step prediction_counts (None, 0%Z) in
    best_prediction.

Definition predict (patterns : Py.dict string) (results : list string)
    : option string :=
  let matching_predictions := find_matching_patterns patterns results in
  get_best_prediction matching_predictions.

(** ** The matcher over a store of mutable objects

    Python passes [patterns], [results] and [matches] by reference, and the
    code appends to [matches] and assigns into [prediction_counts] in place.
    To state that a call raises nothing and leaves its arguments alone, the
    same three functions are written once more over an explicit store: a
    reference is an index into the store, every container the code creates
    and then mutates is allocated in it, and an operation on a reference
    that is absent or holds another kind of object raises.  Strings and the
    lists that the code only builds and compares ([pattern], [segment]) are
    immutable values. *)

Module Heap.

Inductive obj : Type :=
| OList (l : list string)
| ODict (d : Py.dict string)
| OCounts (d : Py.dict Z).

(** A reference is an index into the store. *)
Abbreviation loc := nat (only parsing).
Abbreviation heap := (list obj) (only parsing).

Inductive exn : Type := TypeError.

Inductive outcome (A : Type) : Type :=
| Returns (a : A) (h : heap)
| Raises (e : exn).
Arguments Returns {A} a h.
Arguments Raises {A} e.

Definition M (A : Type) : Type := heap -> outcome A.

Definition ret {A} (a : A) : M A := fun h => Returns a h.

Definition bind {A B} (m : M A) (f : A -> M B) : M B := fun h =>
  match m h with
  | Returns a h' => f a h'
  | Raises e => Raises e
  end.

Notation "'let*' x ':=' m 'in' k" := (bind m (fun x => k))
  (at level 10, x pattern, m at level 100, k at level 200).
Notation "'run' m 'in' k" := (bind m (fun _ => k))
  (at level 10, m at level 100, k at level 200).

(** A container literal ([[]], [{}]): a fresh object. *)
Definition alloc (o : obj) : M loc := fun h => Returns (length h) (h ++ [o]).

Definition read_list (r : loc) : M (list string) := fun h =>
  match h !! r with
  | Some (OList l) => Returns l h
  | _ => Raises TypeError
  end.

Definition read_dict (r : loc) : M (Py.dict string) := fun h =>
  match h !! r with
  | Some (ODict d) => Returns d h
  | _ => Raises TypeError
  end.

Definition read_counts (r : loc) : M (Py.dict Z) := fun h =>
  match h !! r with
  | Some (OCounts d) => Returns d h
  | _ => Raises TypeError
  end.

(** [not r]. *)
Definition is_falsy (r : loc) : M bool := fun h =>
  match h !! r with
  | Some (OList l) => Returns (negb (Py.truthy l)) h
  | Some (ODict d) => Returns (negb (Py.truthy d)) h
  | Some (OCounts d) => Returns (negb (Py.truthy d)) h
  | None => Raises TypeError
  end.

(** [len(r)] of a list. *)
Definition list_len (r : loc) : M nat :=
  let* l := read_list r in ret (length l).

(** [r[i:j]] of a list: a new list. *)
Definition list_slice (r : loc) (i j : nat) : M (list string) :=
  let* l := read_list r in ret (Py.slice l i j).

(** [r.append(x)]: the list at [r] is updated in place. *)
Definition list_append (r : loc) (x : string) : M unit := fun h =>
  match h !! r with
  | Some (OList l) => Returns () (<[r := OList (l ++ [x])]> h)
  | _ => Raises TypeError
  end.

(** [r.get(k, dflt)] of the tally. *)
Definition counts_get (r : loc) (k : string) (dflt : Z) : M Z :=
  let* d := read_counts r in ret (Py.dict_get d k dflt).

(** [r[k] = v] of the tally, in place. *)
Definition counts_set (r : loc) (k : string) (v : Z) : M unit := fun h =>
  match h !! r with
  | Some (OCounts d) => Returns () (<[r := OCounts (Py.dict_set d k v)]> h)
  | _ => Raises TypeError
  end.

(** [for x in l: body]. *)
Fixpoint for_each {A} (l : list A) (body : A -> M unit) : M unit :=
  match l with
  | [] => ret ()
  | x :: l' => run body x in for_each l' body
  end.

(** The value a call returned, if it returned. *)
Definition returned {A} (o : outcome A) : option A :=
  match o with Returns a _ => Some a | Raises _ => None end.

(** The store a call left behind, if it returned. *)
Definition final_heap {A} (o : outcome A) : option heap :=
  match o with Returns _ h => Some h | Raises _ => None end.

End Heap.

Import Heap.

(** The three functions of [PatternMatcher] over the store. *)
Module Store.

Definition find_matching_patterns (patterns results : loc) : M loc :=
  let* np := is_falsy patterns in
  let* nr := (if np then ret true else is_falsy results) in
  if nr then alloc (OList [])
  else
    let* matches := alloc (OList []) in
    let* rs := read_list results in
    let results_str := Py.join "," rs in
    let* items := read_dict patterns in
    run for_each items (fun '(pattern_str, prediction) =>
      let pattern := Py.split ","%char pattern_str in
      let pattern_len := length pattern in
      let* n := list_len results in
      if (n <? pattern_len)%nat then ret ()
      else
        let* n := list_len results in
        for_each (Py.range (n - pattern_len + 1)) (fun i =>
          let* segment := list_slice results i (i + pattern_len) in
          if bool_decide (segment = pattern)
          then list_append matches prediction
          else ret ())) in
    ret matches.

Definition get_best_prediction (matching_predictions : loc)
    : M (option string) :=
  let* n := is_falsy matching_predictions in
  if n then ret None
  else
    let* prediction_counts := alloc (OCounts []) in
    let* preds := read_list matching_predictions in
    run for_each preds (fun pred =>
      let* c := counts_get prediction_counts pred 0%Z in
      counts_set prediction_counts pred (c + 1)%Z) in
    let* items := read_counts prediction_counts in
    let '(best_prediction, highest_count) :=
      fold_left best_step items (None, 0%Z) in
    ret best_prediction.

Definition predict (patterns results : loc) : M (option string) :=
  let* matching_predictions := find_matching_patterns patterns results in
  get_best_prediction matching_predictions.

End Store.

(** ** What the specification says, in its own words *)

(** The number of times a label occurs in a list of labels. *)
Definition occurrences (x : string) (l : list string) : nat :=
  length (filter (fun y => y = x) l).

Module Spec.

(** "Compare the window element-wise (exact, order-sensitive,
    case-sensitive) equality to [pattern]": the window of [results] that
    starts at offset [i] lies inside [results] and carries, position by
    position, the labels of [pattern]. *)
Definition window_matches (results pattern : list string) (i : nat) : Prop :=
  i + length pattern <= length results /\
  forall j x, pattern !! j = Some x -> results !! (i + j) = Some x.

(** The same comparison as a loop over the pattern. *)
Fixpoint window_eqb (results pattern : list string) (i : nat) : bool :=
  match pattern with
  | [] => bool_decide (i <= length results)
  | x :: pattern' =>
      match results !! i with
      | Some y => String.eqb y x && window_eqb results pattern' (S i)
      | None => false
      end
  end.

(** "If L > len(results), skip.  Otherwise slide a window of length L
    across [results] at every start offset 0..len(results)-L inclusive":
    the offsets, in ascending order, at which the window equals the pattern. *)
Definition matching_offsets (results pattern : list string) : list nat :=
  if decide (length results < length pattern) then []
  else filter (fun i => window_eqb results pattern i = true)
         (seq 0 (length results - length pattern + 1)).

(** The matching (pattern, window-offset) pairs of a table, each with the
    outcome of its pattern: table order first, then ascending offset. *)
Definition matching_pairs (patterns : Py.dict string) (results : list string)
    : list (string * string * nat) :=
  patterns ≫= fun '(k, o) =>
    (fun i => (k, o, i)) <$> matching_offsets results (Py.split ","%char k).

(** What one table entry contributes: its outcome, once per matching offset. *)
Definition contribution (results : list string) (item : string * string)
    : list string :=
  replicate (length (matching_offsets results (Py.split ","%char item.1))) item.2.

(** The offsets at which [results] carries the label [x]. *)
Definition positions_of (x : string) (results : list string) : list nat :=
  filter (fun i => results !! i = Some x) (seq 0 (length results)).

End Spec.

(** The tally after the labels [ms] have been counted: one entry per
    distinct label, holding its number of occurrences, and the entries stand
    in the order in which the labels first appeared in [ms]. *)
Definition tally_of (ms : list string) (d : Py.dict Z) : Prop :=
  NoDup (d.*1) /\
  (forall k c, (k, c) ∈ d -> c = Z.of_nat (occurrences k ms) /\ k ∈ ms) /\
  (forall k, k ∈ ms -> k ∈ d.*1) /\
  (forall a k b, d.*1 = a ++ k :: b ->
     exists pre post, ms = pre ++ k :: post /\ forall x, x ∈ pre -> x ∈ a).

(** * The collaborators of the matcher

    [src/data_manager.py] keeps the tables the matcher reads and the
    histories it is given; [src/utils/helpers.py] lays out the selection
    keyboards.  What follows embeds the functions of these files that do not
    depend on the clock or on the network. *)

(** ** Further operations on Python containers *)

Module PyMore.

(** [d.get(k)]: the value at [k], or [None]. *)
Fixpoint lookup {V} (d : Py.dict V) (k : string) : option V :=
  match d with
  | [] => None
  | (k', v) :: d' => if String.eqb k' k then Some v else lookup d' k
  end.

(** [k in d]. *)
Definition mem {V} (d : Py.dict V) (k : string) : bool :=
  match lookup d k with Some _ => true | None => false end.

(** [del d[k]]; the code only deletes a key it has found in [d]. *)
Fixpoint del {V} (d : Py.dict V) (k : string) : Py.dict V :=
  match d with
  | [] => []
  | (k', v) :: d' => if String.eqb k' k then d' else (k', v) :: del d' k
  end.

(** [x in l] for a list of strings. *)
Definition contains (l : list string) (x : string) : bool :=
  existsb (String.eqb x) l.

(** [l.remove(x)]: the first occurrence of [x] goes; the code only removes
    an element it has found in [l]. *)
Fixpoint remove (l : list string) (x : string) : list string :=
  match l with
  | [] => []
  | y :: l' => if String.eqb y x then l' else y :: remove l' x
  end.

(** [enumerate(l)]. *)
Definition enumerate {A} (l : list A) : list (nat * A) :=
  zip (seq 0 (length l)) l.

(** [c in s] for a character [c]. *)
Fixpoint has_char (c : ascii) (s : string) : bool :=
  match s with
  | EmptyString => false
  | String c' s' => Ascii.eqb c' c || has_char c s'
  end.

End PyMore.

(** ** [config.py] *)

Module Config.

Definition DEFAULT_APPS : list string := ["1win"; "Bet365"; "Fun88"].

End Config.

(** ** [DataManager]

    The object is a record of its attributes and a method is a function
    from the state before the call to the returned value and the state
    after it.  A [dict] that the code uses as a record is a record whose
    fields are optional where the code tests for the key.  [T] stands for
    [datetime], with its method [isoformat]; [O] stands for the entries of
    a user that the functions below neither read nor write (['username'],
    ['joined_date'], ['is_pro'], ['free_predictions'],
    ['free_predictions_left'], ['free_expiry']). *)

Module DataManager.

Section Model.

Context {T O : Type}.
Context (isoformat : T -> string).

(** A timestamp is a [datetime], or a string once it was serialised. *)
Inductive stamp : Type :=
| Datetime (t : T)
| IsoString (s : string).

(** An entry of ['prediction_history']. *)
Record pred_record : Type := {
  pr_app : string;
  pr_game : string;
  pr_prediction : string;
  pr_correct : option bool;
  pr_timestamp : option stamp
}.

(** A value of ['last_predictions']. *)
Record last_prediction : Type := {
  lp_prediction : option string;
  lp_timestamp : option stamp
}.

Record user : Type := {
  prediction_history : option (list pred_record);
  last_results : option (Py.dict (list string));
  last_predictions : option (Py.dict last_prediction);
  other_entries : O
}.

(** A key of [self.users]: an [int], or a [str] in data of an older layout. *)
Inductive ukey : Type :=
| KInt (n : Z)
| KStr (s : string).

(** A value of [self.games]. *)
Record game_info : Type := {
  cooldown : option Z;
  patterns : option (Py.dict string);
  result_format : option (list string)
}.

Record manager : Type := {
  users : list (ukey * user);
  games : Py.dict game_info;
  apps : list string;
  required_channel : string;
  log_channel : string;
  free_predictions : Z;
  free_period_days : Z
}.

Definition ukey_eqb (a b : ukey) : bool :=
  match a, b with
  | KInt n, KInt n' => Z.eqb n n'
  | KStr s, KStr s' => String.eqb s s'
  | _, _ => false
  end.

(** [self.users.get(k)]. *)
Fixpoint users_get (us : list (ukey * user)) (k : ukey) : option user :=
  match us with
  | [] => None
  | (k', u) :: us' => if ukey_eqb k' k then Some u else users_get us' k
  end.

(** An update in place of the user stored at [k]. *)
Fixpoint users_alter (f : user -> user) (us : list (ukey * user)) (k : ukey)
    : list (ukey * user) :=
  match us with
  | [] => []
  | (k', u) :: us' =>
      if ukey_eqb k' k then (k', f u) :: us' else (k', u) :: users_alter f us' k
  end.

(** What [_save_data] leaves in memory.  It writes [bot_data.json] from a
    copy of each user, but the copy is shallow: the entries of
    ['prediction_history'] and of ['last_predictions'] are shared with the
    user, so a timestamp that is a [datetime] is replaced there by its
    [isoformat()]; nothing else of the object is assigned, and an error of
    the file system is caught and printed. *)
Definition serialise (s : stamp) : stamp :=
  match s with
  | Datetime t => IsoString (isoformat t)
  | IsoString s => IsoString s
  end.

Definition save_record (p : pred_record) : pred_record :=
  {| pr_app := pr_app p; pr_game := pr_game p; pr_prediction := pr_prediction p;
     pr_correct := pr_correct p; pr_timestamp := serialise <$> pr_timestamp p |}.

Definition save_last (p : last_prediction) : last_prediction :=
  {| lp_prediction := lp_prediction p;
     lp_timestamp := serialise <$> lp_timestamp p |}.

Definition save_user (u : user) : user :=
  {| prediction_history := fmap (M := list) save_record <$> prediction_history u;
     last_results := last_results u;
     last_predictions :=
       fmap (M := list) (prod_map id save_last) <$> last_predictions u;
     other_entries := other_entries u |}.

Definition _save_data (m : manager) : manager :=
  {| users := prod_map id save_user <$> users m;
     games := games m; apps := apps m;
     required_channel := required_channel m; log_channel := log_channel m;
     free_predictions := free_predictions m;
     free_period_days := free_period_days m |}.

Definition set_users (m : manager) (us : list (ukey * user)) : manager :=
  {| users := us; games := games m; apps := apps m;
     required_channel := required_channel m; log_channel := log_channel m;
     free_predictions := free_predictions m;
     free_period_days := free_period_days m |}.

Definition set_games (m : manager) (gs : Py.dict game_info) : manager :=
  {| users := users m; games := gs; apps := apps m;
     required_channel := required_channel m; log_channel := log_channel m;
     free_predictions := free_predictions m;
     free_period_days := free_period_days m |}.

Definition set_apps (m : manager) (l : list string) : manager :=
  {| users := users m; games := games m; apps := l;
     required_channel := required_channel m; log_channel := log_channel m;
     free_predictions := free_predictions m;
     free_period_days := free_period_days m |}.

Definition set_patterns (g : game_info) (ps : Py.dict string) : game_info :=
  {| cooldown := cooldown g; patterns := Some ps;
     result_format := result_format g |}.

Definition set_last_results (u : user) (lr : Py.dict (list string)) : user :=
  {| prediction_history := prediction_history u; last_results := Some lr;
     last_predictions := last_predictions u;
     other_entries := other_entries u |}.

Definition get_user (m : manager) (user_id : Z) : option user :=
  users_get (users m) (KInt user_id).

(** An empty user [dict], which [not user] also rejects, has no
    ['last_results'] and yields [[]] all the same. *)
Definition get_user_results (m : manager) (user_id : Z) (app game : string)
    : list string :=
  match get_user m user_id with
  | None => []
  | Some user =>
      match last_results user with
      | None => []
      | Some lr =>
          let key := app +:+ "_" +:+ game in
          Py.dict_get lr key []
      end
  end.

(** An empty user [dict] and an empty or absent prediction return early
    like the empty history does. *)
Definition update_after_correct_prediction (m : manager) (user_id : Z)
    (app game : string) : manager :=
  match get_user m user_id with
  | None => m
  | Some user =>
      let key := app +:+ "_" +:+ game in
      let results := Py.dict_get (default [] (last_results user)) key [] in
      if negb (Py.truthy results) then m
      else
        let last_pred :=
          PyMore.lookup (default [] (last_predictions user)) game
            ≫= lp_prediction in
        match last_pred with
        | None => m
        | Some EmptyString => m
        | Some last_pred =>
            let results :=
              if (10 <=? length results)%nat
              then drop 1 results ++ [last_pred]
              else results ++ [last_pred] in
            _save_data
              (set_users m
                 (users_alter
                    (fun u =>
                       set_last_results u
                         (Py.dict_set (default [] (last_results u)) key results))
                    (users m) (KInt user_id)))
        end
  end.

Definition add_pattern (m : manager) (game : string) (pattern : list string)
    (result : string) : bool * manager :=
  match PyMore.lookup (games m) game with
  | None => (false, m)
  | Some info =>
      let info :=
        match patterns info with
        | None => set_patterns info []
        | Some _ => info
        end in
      let pattern_key := Py.join "," pattern in
      let info :=
        set_patterns info
          (Py.dict_set (default [] (patterns info)) pattern_key result) in
      (true, _save_data (set_games m (Py.dict_set (games m) game info)))
  end.

Definition remove_pattern (m : manager) (game : string) (pattern : list string)
    : bool * manager :=
  match PyMore.lookup (games m) game with
  | None => (false, m)
  | Some info =>
      match patterns info with
      | None => (false, m)
      | Some ps =>
          let pattern_key := Py.join "," pattern in
          if PyMore.mem ps pattern_key
          then
            let info := set_patterns info (PyMore.del ps pattern_key) in
            (true, _save_data (set_games m (Py.dict_set (games m) game info)))
          else (false, m)
      end
  end.

Definition set_cooldown (m : manager) (game : string) (cd : Z)
    : bool * manager :=
  match PyMore.lookup (games m) game with
  | None => (false, m)
  | Some info =>
      let info :=
        {| cooldown := Some cd; patterns := patterns info;
           result_format := result_format info |} in
      (true, _save_data (set_games m (Py.dict_set (games m) game info)))
  end.

(** [cooldown] defaults to 60 and [result_format] to [None] at the call. *)
Definition add_game (m : manager) (game : string) (cd : Z)
    (format : option (list string)) : bool * manager :=
  if PyMore.mem (games m) game then (false, m)
  else
    let format :=
      match format with
      | None | Some [] => ["Big"; "Small"]
      | Some f => f
      end in
    let info :=
      {| cooldown := Some cd; patterns := Some []; result_format := Some format |} in
    (true, _save_data (set_games m (Py.dict_set (games m) game info))).

(** [DEFAULT_GAMES] is the value of [config.DEFAULT_GAMES] at the call. *)
Definition delete_game (DEFAULT_GAMES : Py.dict game_info) (m : manager)
    (game : string) : bool * manager :=
  if negb (PyMore.mem (games m) game) then (false, m)
  else
    let gs := PyMore.del (games m) game in
    let gs := if negb (Py.truthy gs) then DEFAULT_GAMES else gs in
    (true, _save_data (set_games m gs)).

Definition get_all_games (m : manager) : Py.dict game_info := games m.

Definition get_all_apps (m : manager) : list string := apps m.

Definition add_app (m : manager) (app : string) : bool * manager :=
  if PyMore.contains (apps m) app then (false, m)
  else (true, _save_data (set_apps m (apps m ++ [app]))).

Definition delete_app (m : manager) (app : string) : bool * manager :=
  if negb (PyMore.contains (apps m) app) then (false, m)
  else
    let l := PyMore.remove (apps m) app in
    let l := if negb (Py.truthy l) then Config.DEFAULT_APPS else l in
    (true, _save_data (set_apps m l)).

End Model.

End DataManager.

(** ** The selection keyboards of [utils/helpers.py]

    An [InlineKeyboardButton] is the pair of its label and its callback
    data, an [InlineKeyboardMarkup] the list of its rows. *)

Module Helpers.

Record button : Type := { text : string; callback_data : string }.

(** The body of the loop that fills the rows: the state is
    [(keyboard, row)], [n] is the number of items. *)
Definition row_step (mk : string -> button) (n : nat)
    (st : list (list button) * list button) (item : nat * string)
    : list (list button) * list button :=
  let '(keyboard, row) := st in
  let '(i, x) := item in
  let row := row ++ [mk x] in
  if (length row =? 2)%nat || (i =? n - 1)%nat then (keyboard ++ [row], [])
  else (keyboard, row).

Definition build_app_selector {T O} (m : @DataManager.manager T O)
    : list (list button) :=
  let apps := DataManager.get_all_apps m in
  let keyboard := [] in
  if negb (Py.truthy apps)
  then keyboard ++ [[ {| text := "No apps available"; callback_data := "none_app" |} ]]
  else
    let row := [] in
    let '(keyboard, row) :=
      fold_left
        (row_step (fun app => {| text := app; callback_data := "app_" +:+ app |})
           (length apps))
        (PyMore.enumerate apps) (keyboard, row) in
    keyboard.

Definition build_game_selector {T O} (m : @DataManager.manager T O)
    (app : string) : list (list button) :=
  let games := DataManager.get_all_games m in
  let keyboard := [] in
  let row := [] in
  let game_list := games.*1 in
  let keyboard :=
    if negb (Py.truthy game_list)
    then keyboard ++ [[ {| text := "No games available"; callback_data := "none" |} ]]
    else
      let '(keyboard, row) :=
        fold_left
          (row_step
             (fun game =>
                {| text := game;
                   callback_data := "game_" +:+ app +:+ "_" +:+ game |})
             (length game_list))
          (PyMore.enumerate game_list) (keyboard, row) in
      keyboard in
  keyboard ++ [[ {| text := "â¬…ï¸ Back"; callback_data := "back_to_apps" |} ]].

(** Buttons laid out two to a row, a last single one in a row of its own:
    what the loops above are meant to build. *)
Fixpoint rows_of_two (bs : list button) : list (list button) :=
  match bs with
  | [] => []
  | b :: bs' =>
      match bs' with
      | [] => [[b]]
      | b' :: bs'' => [b; b'] :: rows_of_two bs''
      end
  end.

Definition app_button (app : string) : button :=
  {| text := app; callback_data := "app_" +:+ app |}.

Definition game_button (app game : string) : button :=
  {| text := game; callback_data := "game_" +:+ app +:+ "_" +:+ game |}.

End Helpers.

(** ** States used in the examples: no clock, no further entries *)

Module Sample.

Definition iso (t : unit) : string := "2024-01-01T00:00:00".

Definition wingo : @DataManager.game_info :=
  {| DataManager.cooldown := Some 0%Z;
     DataManager.patterns := Some [];
     DataManager.result_format := Some ["Big"; "Small"] |}.

Definition alice : @DataManager.user unit unit :=
  {| DataManager.prediction_history := Some [];
     DataManager.last_results :=
       Some [("1win_WINGO",
              ["Big"; "Small"; "Big"; "Big"; "Small";
               "Small"; "Big"; "Small"; "Big"; "Big"])];
     DataManager.last_predictions :=
       Some [("WINGO",
              {| DataManager.lp_prediction := Some "Small";
                 DataManager.lp_timestamp := Some (DataManager.Datetime tt) |})];
     DataManager.other_entries := tt |}.

Definition state : @DataManager.manager unit unit :=
  {| DataManager.users := [(DataManager.KInt 7, alice)];
     DataManager.games := [("WINGO", wingo)];
     DataManager.apps := Config.DEFAULT_APPS;
     DataManager.required_channel := "";
     DataManager.log_channel := "";
     DataManager.free_predictions := 5;
     DataManager.free_period_days := 7 |}.

End Sample.

(** * Properties *)

(** ** Python primitives *)

Lemma split_not_nil sep s : Py.split sep s <> [].
Proof.
  destruct s as [|c s]; simpl; [done|].
  destruct (Ascii.eqb c sep); [done|].
  by destruct (Py.split sep s).
Qed.

Lemma slice_window {A} (l : list A) i n : Py.slice l i (i + n) = take n (drop i l).
Proof. unfold Py.slice. f_equal. lia. Qed.

(** ** The comparison of a window *)

Lemma window_eqb_spec results pattern i :
  Spec.window_eqb results pattern i = true <-> Spec.window_matches results pattern i.
Proof.
  unfold Spec.window_matches.
  revert i. induction pattern as [|x pattern IH]; intros i; simpl.
  - rewrite bool_decide_eq_true. split.
    + intros Hi. split; [lia|]. intros j y Hj. by rewrite lookup_nil in Hj.
    + intros [Hi _]. lia.
  - destruct (results !! i) as [y|] eqn:Hy.
    + rewrite andb_true_iff, String.eqb_eq, IH. split.
      * intros [-> [Hlen Hall]]. split; [lia|].
        intros [|j] z Hz; simpl in Hz.
        -- injection Hz as <-. by rewrite Nat.add_0_r.
        -- replace (i + S j) with (S i + j) by lia. by apply Hall.
      * intros [Hlen Hall]. split; [|split; [lia|]].
        -- specialize (Hall 0 x eq_refl). rewrite Nat.add_0_r in Hall. congruence.
        -- intros j z Hz. replace (S i + j) with (i + S j) by lia. by apply Hall.
    + apply lookup_ge_None in Hy. split; [done|]. intros [Hlen _]. lia.
Qed.

Lemma slice_eq_window results pattern i :
  i + length pattern <= length results ->
  Py.slice results i (i + length pattern) = pattern
  <-> Spec.window_matches results pattern i.
Proof.
  intros Hlen. rewrite slice_window. unfold Spec.window_matches. split.
  - intros Heq. split; [done|]. intros j x Hj.
    rewrite <- Heq in Hj. apply lookup_take_Some in Hj as [Hj _].
    by rewrite lookup_drop in Hj.
  - intros [_ Hall]. apply list_eq. intros j.
    destruct (pattern !! j) as [x|] eqn:Hj.
    + rewrite lookup_take_lt by (apply lookup_lt_Some in Hj; lia).
      rewrite lookup_drop. by apply Hall.
    + apply lookup_ge_None in Hj. apply lookup_ge_None.
      rewrite length_take. lia.
Qed.

(** ** The two loops of [find_matching_patterns] *)

Lemma check_segment_fold results pattern prediction offs matches :
  fold_left (check_segment results pattern prediction) offs matches
  = matches ++ replicate
      (length (filter (fun i => Py.slice results i (i + length pattern) = pattern) offs))
      prediction.
Proof.
  revert matches. induction offs as [|i offs IH]; intros matches; simpl.
  - by rewrite app_nil_r.
  - rewrite IH. unfold check_segment. rewrite filter_cons.
    case_bool_decide as Hseg.
    + rewrite decide_True by done. simpl. by rewrite <- app_assoc.
    + by rewrite decide_False by done.
Qed.

Lemma filter_ext_in {A} (P Q : A -> Prop)
    `{!forall x, Decision (P x)} `{!forall x, Decision (Q x)} (l : list A) :
  (forall x, x ∈ l -> P x <-> Q x) -> filter P l = filter Q l.
Proof.
  induction l as [|x l IH]; intros Hext; [done|].
  rewrite !filter_cons.
  assert (Hx : P x <-> Q x) by (apply Hext; left).
  rewrite IH by (intros y Hy; apply Hext; by right).
  destruct (decide (P x)), (decide (Q x)); tauto || done.
Qed.

Lemma filter_window_offsets results pattern n :
  n + length pattern <= length results + 1 ->
  filter (fun i => Py.slice results i (i + length pattern) = pattern) (seq 0 n)
  = filter (fun i => Spec.window_eqb results pattern i = true) (seq 0 n).
Proof.
  intros Hn. apply filter_ext_in. intros i Hi.
  apply elem_of_seq in Hi.
  rewrite window_eqb_spec. apply slice_eq_window. lia.
Qed.

Lemma scan_pattern_contribution results matches item :
  scan_pattern results matches item = matches ++ Spec.contribution results item.
Proof.
  destruct item as [pattern_str prediction].
  unfold scan_pattern, Spec.contribution, Spec.matching_offsets, Py.range. simpl.
  destruct (Nat.ltb_spec (length results) (length (Py.split "," pattern_str))) as [Hlt|Hge].
  - rewrite decide_True by done. simpl. by rewrite app_nil_r.
  - rewrite decide_False by lia.
    rewrite check_segment_fold, filter_window_offsets by lia. done.
Qed.

Lemma scan_pattern_fold results patterns matches :
  fold_left (scan_pattern results) patterns matches
  = matches ++ (patterns ≫= Spec.contribution results).
Proof.
  revert matches. induction patterns as [|item patterns IH]; intros matches; simpl.
  - by rewrite app_nil_r.
  - by rewrite IH, scan_pattern_contribution, <- app_assoc.
Qed.

Lemma matching_offsets_nil_results pattern :
  pattern <> [] -> Spec.matching_offsets [] pattern = [].
Proof.
  intros Hp. unfold Spec.matching_offsets.
  destruct pattern; [done|]. case_decide as Hlen; [done|]. simpl in Hlen. lia.
Qed.

Lemma contribution_nil_results item : Spec.contribution [] item = [].
Proof.
  unfold Spec.contribution.
  by rewrite matching_offsets_nil_results by apply split_not_nil.
Qed.

(** The list built by the loops is the concatenation of the entries'
    contributions, in table order. *)
Lemma find_matching_patterns_bind patterns results :
  find_matching_patterns patterns results = patterns ≫= Spec.contribution results.
Proof.
  unfold find_matching_patterns.
  destruct patterns as [|item patterns]; [done|].
  destruct results as [|r results].
  - simpl. rewrite contribution_nil_results. symmetry.
    induction patterns as [|item' patterns IH]; [done|].
    simpl. by rewrite contribution_nil_results.
  - cbn [Py.truthy negb orb]. by rewrite scan_pattern_fold.
Qed.

Lemma find_matching_patterns_app p1 p2 results :
  find_matching_patterns (p1 ++ p2) results
  = find_matching_patterns p1 results ++ find_matching_patterns p2 results.
Proof. rewrite !find_matching_patterns_bind. apply bind_app. Qed.

Lemma find_matching_patterns_cons item patterns results :
  find_matching_patterns (item :: patterns) results
  = Spec.contribution results item ++ find_matching_patterns patterns results.
Proof. by rewrite !find_matching_patterns_bind. Qed.

(** ** The tally of [get_best_prediction] *)

Lemma occurrences_snoc k ms x :
  occurrences k (ms ++ [x]) = occurrences k ms + (if decide (x = k) then 1 else 0).
Proof.
  unfold occurrences. rewrite filter_app, length_app, filter_cons, filter_nil.
  by destruct (decide (x = k)).
Qed.

Lemma occurrences_cons k x ms :
  occurrences k (x :: ms) = (if decide (x = k) then 1 else 0) + occurrences k ms.
Proof.
  unfold occurrences. rewrite filter_cons. by destruct (decide (x = k)).
Qed.

Lemma occurrences_pos k ms : 0 < occurrences k ms <-> k ∈ ms.
Proof.
  induction ms as [|x ms IH].
  - unfold occurrences. simpl. split; [lia | by intros ?%elem_of_nil].
  - rewrite occurrences_cons, elem_of_cons. destruct (decide (x = k)) as [->|Hne].
    + split; [by left | lia].
    + rewrite <- IH. split; [intros; right; lia | intros [?|?]; [congruence | lia]].
Qed.

Lemma dict_set_keys {V} (d : Py.dict V) k v :
  (Py.dict_set d k v).*1 = if decide (k ∈ d.*1) then d.*1 else d.*1 ++ [k].
Proof.
  induction d as [|[k0 v0] d IH].
  - destruct (decide (k ∈ ([] : Py.dict V).*1)) as [Hin|_]; [|done].
    by apply elem_of_nil in Hin.
  - cbn [Py.dict_set]. destruct (String.eqb_spec k0 k) as [->|Hne].
    + destruct (decide (k ∈ ((k, v0) :: d).*1)) as [_|Hnin]; [done|].
      exfalso. apply Hnin. rewrite fmap_cons. by left.
    + rewrite !fmap_cons, IH. cbn [fst].
      destruct (decide (k ∈ d.*1)) as [Hin|Hnin];
        destruct (decide (k ∈ k0 :: d.*1)) as [Hin'|Hnin']; try done.
      * exfalso. apply Hnin'. by right.
      * apply elem_of_cons in Hin' as [?|?]; congruence.
Qed.

Lemma dict_set_elem_of {V} (d : Py.dict V) k v k' c :
  NoDup (d.*1) -> (k', c) ∈ Py.dict_set d k v ->
  (k' = k /\ c = v) \/ (k' <> k /\ (k', c) ∈ d).
Proof.
  induction d as [|[k0 v0] d IH]; simpl; intros Hnd Hin.
  - apply list_elem_of_singleton in Hin. injection Hin as -> ->. by left.
  - apply NoDup_cons in Hnd as [Hk0 Hnd].
    destruct (String.eqb_spec k0 k) as [->|Hne].
    + apply elem_of_cons in Hin as [Heq|Hin].
      * injection Heq as -> ->. by left.
      * right. split; [|by right]. intros ->. apply Hk0.
        apply list_elem_of_fmap. by exists (k, c).
    + apply elem_of_cons in Hin as [Heq|Hin].
      * injection Heq as -> ->. right. split; [done | by left].
      * destruct (IH Hnd Hin) as [?|[? ?]]; [by left|]. right. split; [done | by right].
Qed.

Lemma dict_get_elem_of {V} (d : Py.dict V) k c dflt :
  NoDup (d.*1) -> (k, c) ∈ d -> Py.dict_get d k dflt = c.
Proof.
  induction d as [|[k0 v0] d IH]; simpl; intros Hnd Hin.
  - by apply elem_of_nil in Hin.
  - apply NoDup_cons in Hnd as [Hk0 Hnd].
    apply elem_of_cons in Hin as [Heq|Hin].
    + injection Heq as -> ->. by rewrite String.eqb_refl.
    + destruct (String.eqb_spec k0 k) as [->|Hne]; [|by apply IH].
      exfalso. apply Hk0. apply list_elem_of_fmap. by exists (k, c).
Qed.

Lemma dict_get_not_key {V} (d : Py.dict V) k dflt :
  k ∉ d.*1 -> Py.dict_get d k dflt = dflt.
Proof.
  induction d as [|[k0 v0] d IH]; simpl; intros Hk; [done|].
  apply not_elem_of_cons in Hk as [Hne Hk].
  destruct (String.eqb_spec k0 k) as [->|_]; [done | by apply IH].
Qed.

Lemma tally_of_nil : tally_of [] [].
Proof.
  split; [constructor|]. split; [|split].
  - intros k c Hin. by apply elem_of_nil in Hin.
  - intros k Hin. by apply elem_of_nil in Hin.
  - intros a k b Heq. by destruct a.
Qed.

Lemma tally_get ms d x :
  tally_of ms d -> Py.dict_get d x 0%Z = Z.of_nat (occurrences x ms).
Proof.
  intros (Hnd & Hval & Hkeys & _).
  destruct (decide (x ∈ d.*1)) as [Hin|Hnin].
  - apply list_elem_of_fmap in Hin as ([k c] & -> & Hin). simpl.
    rewrite (dict_get_elem_of d k c) by done. by apply Hval.
  - rewrite dict_get_not_key by done.
    assert (Hx : ~ (0 < occurrences x ms)).
    { rewrite occurrences_pos. intros Hx. by apply Hnin, Hkeys. }
    lia.
Qed.

Lemma tally_of_step ms d x :
  tally_of ms d -> tally_of (ms ++ [x]) (tally_step d x).
Proof.
  intros Hinv. unfold tally_step. rewrite (tally_get ms d x Hinv).
  destruct Hinv as (Hnd & Hval & Hkeys & Hord).
  split; [|split; [|split]].
  - rewrite dict_set_keys. destruct (decide (x ∈ d.*1)) as [Hin|Hnin]; [done|].
    apply NoDup_app. split; [done|]. split; [|apply NoDup_singleton].
    intros y Hy Hy'. apply list_elem_of_singleton in Hy'. by subst y.
  - intros k c Hin. apply dict_set_elem_of in Hin as [[-> ->]|[Hne Hin]]; [| |done].
    + rewrite occurrences_snoc, decide_True by done. split; [lia|].
      apply elem_of_app. right. by apply list_elem_of_singleton.
    + destruct (Hval _ _ Hin) as [-> Hk].
      rewrite occurrences_snoc, decide_False by congruence. split; [f_equal; lia|].
      apply elem_of_app. by left.
  - intros k Hk. rewrite dict_set_keys.
    apply elem_of_app in Hk as [Hk|Hk];
      [|apply list_elem_of_singleton in Hk; subst k].
    + apply Hkeys in Hk. destruct (decide (x ∈ d.*1)); [done|].
      apply elem_of_app. by left.
    + destruct (decide (x ∈ d.*1)); [done|].
      apply elem_of_app. right. by apply list_elem_of_singleton.
  - intros a k b Heq. rewrite dict_set_keys in Heq.
    destruct (decide (x ∈ d.*1)) as [Hin|Hnin].
    + destruct (Hord _ _ _ Heq) as (pre & post & -> & Hpre).
      exists pre, (post ++ [x]). split; [by rewrite <- app_assoc | done].
    + destruct b as [|y b _] using rev_ind.
      * apply app_inj_tail in Heq as [<- <-]. exists ms, []. split; [done|].
        apply Hkeys.
      * rewrite app_comm_cons, app_assoc in Heq.
        apply app_inj_tail in Heq as [Heq <-].
        destruct (Hord _ _ _ Heq) as (pre & post & -> & Hpre).
        exists pre, (post ++ [x]). split; [by rewrite <- app_assoc | done].
Qed.

Lemma tally_of_fold ms : forall ms0 d,
  tally_of ms0 d -> tally_of (ms0 ++ ms) (fold_left tally_step ms d).
Proof.
  induction ms as [|x ms IH]; intros ms0 d Hinv; simpl.
  - by rewrite app_nil_r.
  - replace (ms0 ++ x :: ms) with ((ms0 ++ [x]) ++ ms) by by rewrite <- app_assoc.
    apply IH. by apply tally_of_step.
Qed.

Lemma tally_of_matches ms : tally_of ms (fold_left tally_step ms []).
Proof. apply (tally_of_fold ms [] []), tally_of_nil. Qed.

(** The scan for the highest count: the variables either keep their
    values, or hold the first item whose count is the highest of all. *)
Lemma best_step_fold d : forall b h,
  let st := fold_left best_step d (b, h) in
  (h <= st.2)%Z /\
  (forall k c, (k, c) ∈ d -> (c <= st.2)%Z) /\
  (st = (b, h) \/
   exists a k z, d = a ++ (k, st.2) :: z /\ st.1 = Some k /\ (h < st.2)%Z /\
     forall k' c', (k', c') ∈ a -> (c' < st.2)%Z).
Proof.
  induction d as [|[k0 c0] d IH]; intros b h; simpl.
  - split; [lia|]. split; [|by left]. intros k c Hin. by apply elem_of_nil in Hin.
  - destruct (Z.gtb_spec c0 h) as [Hgt|Hle].
    + specialize (IH (Some k0) c0). simpl in IH.
      set (st := fold_left best_step d (Some k0, c0)) in *.
      destruct IH as (Hmono & Hmax & Hcase).
      split; [lia|]. split.
      * intros k c [Heq|Hin]%elem_of_cons; [|eauto].
        assert (Hc : c = c0) by congruence. rewrite Hc. lia.
      * right. destruct Hcase as [Heq|(a & k & z & Hd & Hk & Hlt & Ha)].
        -- rewrite Heq. simpl. exists [], k0, d. repeat split; try done.
           intros k' c' Hin. by apply elem_of_nil in Hin.
        -- exists ((k0, c0) :: a), k, z.
           split; [simpl; by f_equal|]. split; [done|]. split; [lia|].
           intros k' c' [Heq|Hin]%elem_of_cons; [|eauto].
        assert (Hc : c' = c0) by congruence. rewrite Hc. lia.
    + specialize (IH b h). simpl in IH.
      set (st := fold_left best_step d (b, h)) in *.
      destruct IH as (Hmono & Hmax & Hcase).
      split; [lia|]. split.
      * intros k c [Heq|Hin]%elem_of_cons; [|eauto].
        assert (Hc : c = c0) by congruence. rewrite Hc. lia.
      * destruct Hcase as [Heq|(a & k & z & Hd & Hk & Hlt & Ha)]; [by left|].
        right. exists ((k0, c0) :: a), k, z.
        split; [simpl; by f_equal|]. split; [done|]. split; [lia|].
        intros k' c' [Heq|Hin]%elem_of_cons; [|eauto].
        assert (Hc : c' = c0) by congruence. rewrite Hc. lia.
Qed.

(** [get_best_prediction] on a non-empty list: the winner splits the list at
    its first appearance, every label before it has strictly fewer
    occurrences, and no label has more. *)
Lemma get_best_prediction_first_max ms :
  ms <> [] ->
  exists best pre post,
    get_best_prediction ms = Some best /\
    ms = pre ++ best :: post /\
    (forall x, x ∈ pre -> occurrences x ms < occurrences best ms) /\
    (forall x, occurrences x ms <= occurrences best ms).
Proof.
  intros Hne. unfold get_best_prediction.
  destruct ms as [|m0 ms0] eqn:Hms; [done|]. rewrite <- Hms in *.
  replace (negb (Py.truthy ms)) with false by by rewrite Hms.
  pose proof (tally_of_matches ms) as (Hnd & Hval & Hkeys & Hord).
  pose proof (best_step_fold (fold_left tally_step ms []) None 0%Z) as Hscan.
  destruct (fold_left best_step (fold_left tally_step ms []) (None, 0%Z))
    as [b h] eqn:Hfold.
  simpl in Hscan. destruct Hscan as (_ & Hmax & Hcase).
  destruct Hcase as [Heq|(a & k & z & Hd & -> & Hlt & Ha)].
  - exfalso. injection Heq as -> ->.
    assert (Hm0 : m0 ∈ ms) by (rewrite Hms; left).
    apply Hkeys, list_elem_of_fmap in Hm0 as ([k c] & _ & Hin).
    pose proof (Hmax _ _ Hin) as Hc.
    destruct (Hval _ _ Hin) as [-> Hk%occurrences_pos]. lia.
  - assert (Hk : (k, h) ∈ fold_left tally_step ms []).
    { rewrite Hd. apply elem_of_app. right. left. }
    destruct (Hval _ _ Hk) as [Hh _].
    destruct (Hord (a.*1) k (z.*1)) as (pre & post & Hsplit & Hpre).
    { by rewrite Hd, fmap_app, fmap_cons. }
    exists k, pre, post. split; [done|]. split; [done|]. split.
    + intros x Hx. apply Hpre, list_elem_of_fmap in Hx as ([k' c'] & -> & Hin).
      pose proof (Ha _ _ Hin) as Hc'.
      assert (Hin' : (k', c') ∈ fold_left tally_step ms []).
      { rewrite Hd. apply elem_of_app. by left. }
      destruct (Hval _ _ Hin') as [-> _]. simpl. lia.
    + intros x. destruct (decide (x ∈ ms)) as [Hx|Hx].
      * apply Hkeys, list_elem_of_fmap in Hx as ([k' c'] & -> & Hin).
        pose proof (Hmax _ _ Hin) as Hc'.
        destruct (Hval _ _ Hin) as [-> _]. simpl. lia.
      * rewrite <- occurrences_pos in Hx. lia.
Qed.

Lemma get_best_prediction_Some ms :
  ms <> [] -> exists best, get_best_prediction ms = Some best /\ best ∈ ms.
Proof.
  intros Hne.
  destruct (get_best_prediction_first_max ms Hne) as (best & pre & post & Hb & Hs & _).
  exists best. split; [done|]. rewrite Hs. apply elem_of_app. right. left.
Qed.

Lemma get_best_prediction_None ms : get_best_prediction ms = None <-> ms = [].
Proof.
  split; [|by intros ->].
  intros Hnone. destruct (decide (ms = [])) as [|Hne]; [done|].
  destruct (get_best_prediction_Some ms Hne) as (best & Hb & _). congruence.
Qed.

(** A label that occurs strictly more often than every other one wins. *)
Lemma get_best_prediction_strict_max ms l :
  l ∈ ms ->
  (forall x, x <> l -> occurrences x ms < occurrences l ms) ->
  get_best_prediction ms = Some l.
Proof.
  intros Hl Hstrict.
  assert (Hne : ms <> []) by (intros ->; by apply elem_of_nil in Hl).
  destruct (get_best_prediction_first_max ms Hne)
    as (best & pre & post & Hb & _ & _ & Hmax).
  destruct (decide (best = l)) as [->|Hdiff]; [done|].
  specialize (Hstrict best Hdiff). specialize (Hmax l). lia.
Qed.

(** ** The matcher over the store *)

Section StoreRuns.

Lemma bind_Returns {A B} (m : M A) (f : A -> M B) h a h' :
  m h = Returns a h' -> bind m f h = f a h'.
Proof. unfold bind. by intros ->. Qed.

Lemma read_list_run h r l : h !! r = Some (OList l) -> read_list r h = Returns l h.
Proof. unfold read_list. by intros ->. Qed.

Lemma read_dict_run h r d : h !! r = Some (ODict d) -> read_dict r h = Returns d h.
Proof. unfold read_dict. by intros ->. Qed.

Lemma read_counts_run h r d :
  h !! r = Some (OCounts d) -> read_counts r h = Returns d h.
Proof. unfold read_counts. by intros ->. Qed.

Lemma list_len_run h r l :
  h !! r = Some (OList l) -> list_len r h = Returns (length l) h.
Proof. intros Hr. unfold list_len. by rewrite (bind_Returns _ _ _ _ _ (read_list_run _ _ _ Hr)). Qed.

Lemma list_slice_run h r l i j :
  h !! r = Some (OList l) -> list_slice r i j h = Returns (Py.slice l i j) h.
Proof. intros Hr. unfold list_slice. by rewrite (bind_Returns _ _ _ _ _ (read_list_run _ _ _ Hr)). Qed.

Lemma insert_last (h : heap) o o' : <[length h := o]> (h ++ [o']) = h ++ [o].
Proof. rewrite insert_app_r_alt by lia. by rewrite Nat.sub_diag. Qed.

(** Appending to the newest object of the store. *)
Lemma list_append_last h l x :
  list_append (length h) x (h ++ [OList l]) = Returns () (h ++ [OList (l ++ [x])]).
Proof.
  unfold list_append. rewrite list_lookup_middle by done.
  f_equal. apply insert_last.
Qed.

Lemma counts_step_last h d pred :
  bind (counts_get (length h) pred 0%Z)
       (fun c => counts_set (length h) pred (c + 1)%Z) (h ++ [OCounts d])
  = Returns () (h ++ [OCounts (tally_step d pred)]).
Proof.
  unfold counts_get, counts_set, bind, ret, read_counts.
  rewrite list_lookup_middle by done. cbn beta iota.
  rewrite list_lookup_middle by done. f_equal. apply insert_last.
Qed.

Lemma inner_loop_run h results l pattern prediction offs : forall ms,
  h !! results = Some (OList l) ->
  for_each offs (fun i =>
      let* segment := list_slice results i (i + length pattern) in
      if bool_decide (segment = pattern)
      then list_append (length h) prediction
      else ret ()) (h ++ [OList ms])
  = Returns () (h ++ [OList (fold_left (check_segment l pattern prediction) offs ms)]).
Proof.
  intros ms Hr. revert ms. induction offs as [|i offs IH]; intros ms; [done|].
  cbn [for_each fold_left].
  assert (Hr' : (h ++ [OList ms]) !! results = Some (OList l)).
  { rewrite lookup_app_l; [done|]. by apply lookup_lt_Some in Hr. }
  erewrite bind_Returns; [apply IH|].
  erewrite bind_Returns; [|by apply list_slice_run].
  unfold check_segment. case_bool_decide; [apply list_append_last | done].
Qed.

Lemma outer_loop_run h results l items : forall ms,
  h !! results = Some (OList l) ->
  for_each items (fun '(pattern_str, prediction) =>
      let pattern := Py.split ","%char pattern_str in
      let pattern_len := length pattern in
      let* n := list_len results in
      if (n <? pattern_len)%nat then ret ()
      else
        let* n := list_len results in
        for_each (Py.range (n - pattern_len + 1)) (fun i =>
          let* segment := list_slice results i (i + pattern_len) in
          if bool_decide (segment = pattern)
          then list_append (length h) prediction
          else ret ())) (h ++ [OList ms])
  = Returns () (h ++ [OList (fold_left (scan_pattern l) items ms)]).
Proof.
  intros ms Hr. revert ms.
  induction items as [|[pattern_str prediction] items IH]; intros ms; [done|].
  cbn [for_each fold_left].
  assert (Hr' : (h ++ [OList ms]) !! results = Some (OList l)).
  { rewrite lookup_app_l; [done|]. by apply lookup_lt_Some in Hr. }
  erewrite bind_Returns; [apply IH|]. cbv zeta.
  erewrite bind_Returns; [|by apply list_len_run].
  unfold scan_pattern.
  destruct (length l <? length (Py.split "," pattern_str))%nat; [done|].
  erewrite bind_Returns; [|by apply list_len_run].
  by apply inner_loop_run.
Qed.

Lemma tally_loop_run h preds : forall d,
  for_each preds (fun pred =>
      let* c := counts_get (length h) pred 0%Z in
      counts_set (length h) pred (c + 1)%Z) (h ++ [OCounts d])
  = Returns () (h ++ [OCounts (fold_left tally_step preds d)]).
Proof.
  induction preds as [|pred preds IH]; intros d; [done|].
  cbn [for_each fold_left].
  erewrite bind_Returns; [apply IH|]. apply counts_step_last.
Qed.

(** A call of [find_matching_patterns] returns a fresh list that holds what
    the pure function computes, and changes nothing else. *)
Lemma find_matching_patterns_run h patterns results d l :
  h !! patterns = Some (ODict d) ->
  h !! results = Some (OList l) ->
  Store.find_matching_patterns patterns results h
  = Returns (length h) (h ++ [OList (find_matching_patterns d l)]).
Proof.
  intros Hp Hr. unfold Store.find_matching_patterns, find_matching_patterns.
  unfold is_falsy at 1. unfold bind at 1. rewrite Hp.
  destruct d as [|item d]; cbn [Py.truthy negb orb].
  { unfold bind, ret, alloc. done. }
  unfold bind at 1. unfold is_falsy. rewrite Hr.
  destruct l as [|r0 l]; cbn [Py.truthy negb orb].
  { unfold alloc. done. }
  unfold bind at 1. unfold alloc.
  assert (Hp' : (h ++ [OList []]) !! patterns = Some (ODict (item :: d))).
  { rewrite lookup_app_l; [done|]. by apply lookup_lt_Some in Hp. }
  assert (Hr' : (h ++ [OList []]) !! results = Some (OList (r0 :: l))).
  { rewrite lookup_app_l; [done|]. by apply lookup_lt_Some in Hr. }
  erewrite bind_Returns; [|by apply read_list_run]. cbv zeta.
  erewrite bind_Returns; [|by apply read_dict_run].
  erewrite bind_Returns; [|by apply outer_loop_run].
  done.
Qed.

Lemma get_best_prediction_run h mp ms :
  h !! mp = Some (OList ms) ->
  Store.get_best_prediction mp h
  = Returns (get_best_prediction ms)
      (h ++ if Py.truthy ms then [OCounts (fold_left tally_step ms [])] else []).
Proof.
  intros Hm. unfold Store.get_best_prediction, get_best_prediction.
  unfold is_falsy at 1. unfold bind at 1. rewrite Hm.
  destruct (Py.truthy ms) eqn:Hms; cbn [negb].
  2:{ unfold ret. by rewrite app_nil_r. }
  unfold bind at 1. unfold alloc.
  assert (Hm' : (h ++ [OCounts []]) !! mp = Some (OList ms)).
  { rewrite lookup_app_l; [done|]. by apply lookup_lt_Some in Hm. }
  erewrite bind_Returns; [|by apply read_list_run].
  erewrite bind_Returns; [|by apply tally_loop_run].
  erewrite bind_Returns; [|apply read_counts_run, list_lookup_middle; done].
  by destruct (fold_left best_step (fold_left tally_step ms []) (None, 0%Z)).
Qed.

Lemma predict_run h patterns results d l :
  h !! patterns = Some (ODict d) ->
  h !! results = Some (OList l) ->
  Store.predict patterns results h
  = Returns (predict d l)
      (h ++ OList (find_matching_patterns d l) ::
         if Py.truthy (find_matching_patterns d l)
         then [OCounts (fold_left tally_step (find_matching_patterns d l) [])]
         else []).
Proof.
  intros Hp Hr. unfold Store.predict, predict.
  erewrite bind_Returns; [|by apply find_matching_patterns_run].
  erewrite get_best_prediction_run; [|by apply list_lookup_middle].
  by rewrite <- app_assoc.
Qed.

End StoreRuns.

(** ** Matching offsets and matching pairs *)

Lemma matching_offsets_elem results pattern i :
  i ∈ Spec.matching_offsets results pattern <-> Spec.window_matches results pattern i.
Proof.
  unfold Spec.matching_offsets. case_decide as Hlen.
  - split; [by intros ?%elem_of_nil|]. intros [Hi _]. lia.
  - rewrite list_elem_of_filter, elem_of_seq, window_eqb_spec. split; [tauto|].
    intros Hw. split; [done|]. destruct Hw as [Hi _]. lia.
Qed.

Lemma matching_offsets_sorted results pattern :
  StronglySorted lt (Spec.matching_offsets results pattern).
Proof.
  unfold Spec.matching_offsets. case_decide; [constructor|].
  generalize (length results - length pattern + 1) as n. generalize 0 as s.
  intros s n. revert s. induction n as [|n IH]; intros s; simpl; [constructor|].
  rewrite filter_cons. case_decide; [|apply IH].
  constructor; [apply IH|]. apply Forall_forall. intros j Hj.
  apply list_elem_of_filter in Hj as [_ Hj]. apply elem_of_seq in Hj. lia.
Qed.

Lemma StronglySorted_lt_NoDup (l : list nat) : StronglySorted lt l -> NoDup l.
Proof.
  induction 1 as [|x l Hl IH Hx]; constructor; [|done].
  intros Hin. rewrite Forall_forall in Hx. specialize (Hx x Hin). lia.
Qed.

Lemma window_matches_suffix pre pattern :
  Spec.window_matches (pre ++ pattern) pattern (length pre).
Proof.
  split; [by rewrite length_app|]. intros j x Hj.
  rewrite lookup_app_r by lia. by replace (length pre + j - length pre) with j by lia.
Qed.

Lemma contribution_fmap results k o :
  Spec.contribution results (k, o)
  = (fun _ => o) <$> Spec.matching_offsets results (Py.split "," k).
Proof. unfold Spec.contribution. simpl. symmetry. by apply const_fmap. Qed.

Lemma contribution_elem results k o x :
  x ∈ Spec.contribution results (k, o)
  <-> x = o /\ Spec.matching_offsets results (Py.split "," k) <> [].
Proof.
  unfold Spec.contribution. simpl. rewrite elem_of_replicate.
  destruct (Spec.matching_offsets results (Py.split "," k)); simpl;
    intuition (congruence || lia).
Qed.

Lemma find_matching_patterns_elem patterns results x :
  x ∈ find_matching_patterns patterns results
  <-> exists k i, (k, x) ∈ patterns /\
        Spec.window_matches results (Py.split "," k) i.
Proof.
  rewrite find_matching_patterns_bind, list_elem_of_bind. split.
  - intros ([k o] & Hx & Hin). apply contribution_elem in Hx as [-> Hne].
    destruct (Spec.matching_offsets results (Py.split "," k)) as [|i offs] eqn:Hoffs; [done|].
    exists k, i. split; [done|]. apply matching_offsets_elem. rewrite Hoffs. left.
  - intros (k & i & Hin & Hw). exists (k, x). split; [|done].
    apply contribution_elem. split; [done|].
    apply matching_offsets_elem in Hw. intros Hnil. rewrite Hnil in Hw.
    by apply elem_of_nil in Hw.
Qed.

Lemma find_matching_patterns_pairs patterns results :
  find_matching_patterns patterns results
  = (fun p => p.1.2) <$> Spec.matching_pairs patterns results.
Proof.
  rewrite find_matching_patterns_bind. unfold Spec.matching_pairs.
  induction patterns as [|[k o] patterns IH]; [done|].
  rewrite !bind_cons, fmap_app, IH. f_equal.
  rewrite contribution_fmap, <- list_fmap_compose. done.
Qed.

Lemma matching_pairs_elem patterns results k o i :
  (k, o, i) ∈ Spec.matching_pairs patterns results
  <-> (k, o) ∈ patterns /\ Spec.window_matches results (Py.split "," k) i.
Proof.
  unfold Spec.matching_pairs. rewrite list_elem_of_bind. split.
  - intros ([k' o'] & Hin & Hitem).
    apply list_elem_of_fmap in Hin as (i' & Heq & Hi'). injection Heq as -> -> ->.
    split; [done|]. by apply matching_offsets_elem.
  - intros [Hitem Hw]. exists (k, o). split; [|done].
    apply list_elem_of_fmap. exists i. split; [done|]. by apply matching_offsets_elem.
Qed.

Lemma matching_pairs_NoDup patterns results :
  NoDup patterns -> NoDup (Spec.matching_pairs patterns results).
Proof.
  intros Hnd. unfold Spec.matching_pairs. apply NoDup_bind; [| |done].
  - intros [k1 o1] [k2 o2] [[k o] i] _ _ H1 H2.
    apply list_elem_of_fmap in H1 as (i1 & Heq1 & _).
    apply list_elem_of_fmap in H2 as (i2 & Heq2 & _). congruence.
  - intros [k o] _. apply NoDup_fmap_2_strong.
    + intros i j _ _ Heq. congruence.
    + apply StronglySorted_lt_NoDup, matching_offsets_sorted.
Qed.

Lemma occurrences_not_elem x ms : x ∉ ms -> occurrences x ms = 0.
Proof. rewrite <- occurrences_pos. lia. Qed.

Lemma suffix_pattern_matches patterns results k o pre :
  (k, o) ∈ patterns ->
  results = pre ++ Py.split "," k ->
  o ∈ find_matching_patterns patterns results.
Proof.
  intros Hin ->. apply find_matching_patterns_elem.
  exists k, (length pre). split; [done|]. apply window_matches_suffix.
Qed.

(** * The properties of the specification *)

(** C1, as stated, fails: the table [{"Big,Small": "Big", "Small": "Small"}]
    and the history [["Big"; "Small"]] have two patterns that equal a suffix
    window, mapped to different outcomes; [predict] returns ["Big"], not the
    outcome ["Small"] of the suffix pattern ["Small"]. *)
Lemma predict_suffix_pattern_counterexample :
  exists patterns results k o pre,
    results <> [] /\
    Py.dict_wf patterns /\
    (k, o) ∈ patterns /\
    results = pre ++ Py.split "," k /\
    predict patterns results = Some "Big" /\
    predict patterns results <> Some o.
Proof.
  exists [("Big,Small", "Big"); ("Small", "Small")], ["Big"; "Small"],
    "Small", "Small", ["Big"].
  split; [done|]. split.
  { unfold Py.dict_wf. simpl. apply NoDup_cons. split.
    - intros Hin. apply list_elem_of_singleton in Hin. discriminate.
    - apply NoDup_singleton. }
  split; [right; left|]. split; [reflexivity|].
  split; [by vm_compute|]. vm_compute. discriminate.
Qed.

(** C1 (amended): when the table holds a pattern equal to a suffix window of
    [results], [predict] returns a label, one of the matched outcomes, and
    the matched outcomes include the outcome of that pattern; [predict]
    returns that outcome whenever it has strictly more matches than every
    other label, in particular when it is the only outcome that matched. *)
Theorem predict_suffix_pattern patterns results k o pre :
  (k, o) ∈ patterns ->
  results = pre ++ Py.split "," k ->
  o ∈ find_matching_patterns patterns results /\
  (exists l, predict patterns results = Some l /\
     l ∈ find_matching_patterns patterns results) /\
  ((forall x, x <> o ->
      occurrences x (find_matching_patterns patterns results)
      < occurrences o (find_matching_patterns patterns results)) ->
   predict patterns results = Some o) /\
  ((forall x, x ∈ find_matching_patterns patterns results -> x = o) ->
   predict patterns results = Some o).
Proof.
  intros Hin Hres.
  pose proof (suffix_pattern_matches _ _ _ _ _ Hin Hres) as Ho.
  split; [done|]. split; [|split].
  - apply get_best_prediction_Some. intros Hnil. rewrite Hnil in Ho.
    by apply elem_of_nil in Ho.
  - intros Hstrict. by apply get_best_prediction_strict_max.
  - intros Honly. apply get_best_prediction_strict_max; [done|].
    intros x Hx. rewrite (occurrences_not_elem x).
    + by apply occurrences_pos.
    + intros Hxin. by apply Hx, Honly.
Qed.

Lemma predict_suffix_pattern_witness :
  predict [("Big,Small", "Small"); ("Small,Big", "Small")] ["Big"; "Small"; "Big"]
  = Some "Small".
Proof.
  apply (predict_suffix_pattern
           [("Big,Small", "Small"); ("Small,Big", "Small")]
           ["Big"; "Small"; "Big"] "Small,Big" "Small" ["Big"]).
  - right. left.
  - reflexivity.
  - intros x Hx. vm_compute in Hx.
    apply elem_of_cons in Hx as [Hx|Hx]; [done|].
    by apply list_elem_of_singleton in Hx.
Defined.

(** C2: on a non-empty list [get_best_prediction] returns a label of the
    list that no label outnumbers, and among the labels with that highest
    count it is the one that appears first: in the part of the list before
    its first appearance every label has strictly fewer occurrences.  For
    [["Small"; "Big"]], the matches of the table
    [{"Big,Small": "Small", "Small,Big": "Big"}] on [["Big";"Small";"Big"]],
    the result is ["Small"]. *)
Theorem get_best_prediction_majority :
  (forall ms, ms <> [] ->
     exists best pre post,
       get_best_prediction ms = Some best /\
       ms = pre ++ best :: post /\
       (best ∉ pre) /\
       (forall x, occurrences x ms <= occurrences best ms) /\
       (forall x, occurrences x ms = occurrences best ms -> x ∉ pre) /\
       (forall l, l ∈ ms ->
          (forall x, x <> l -> occurrences x ms < occurrences l ms) ->
          best = l)) /\
  get_best_prediction ["Small"; "Big"] = Some "Small" /\
  find_matching_patterns [("Big,Small", "Small"); ("Small,Big", "Big")]
    ["Big"; "Small"; "Big"] = ["Small"; "Big"] /\
  predict [("Big,Small", "Small"); ("Small,Big", "Big")] ["Big"; "Small"; "Big"]
  = Some "Small".
Proof.
  split; [|by vm_compute].
  intros ms Hne.
  destruct (get_best_prediction_first_max ms Hne)
    as (best & pre & post & Hb & Hs & Hpre & Hmax).
  exists best, pre, post. split; [done|]. split; [done|]. split; [|split; [done|split]].
  - intros Hin. specialize (Hpre _ Hin). lia.
  - intros x Heq Hin. specialize (Hpre _ Hin). lia.
  - intros l Hl Hstrict.
    pose proof (get_best_prediction_strict_max ms l Hl Hstrict). congruence.
Qed.

Lemma get_best_prediction_majority_witness :
  exists best pre post,
    get_best_prediction ["A"; "B"; "B"; "A"] = Some best /\
    ["A"; "B"; "B"; "A"] = pre ++ best :: post /\
    (best ∉ pre) /\
    (forall x, occurrences x ["A"; "B"; "B"; "A"] <= occurrences best ["A"; "B"; "B"; "A"]) /\
    (forall x, occurrences x ["A"; "B"; "B"; "A"] = occurrences best ["A"; "B"; "B"; "A"] ->
       x ∉ pre) /\
    (forall l, l ∈ ["A"; "B"; "B"; "A"] ->
       (forall x, x <> l ->
          occurrences x ["A"; "B"; "B"; "A"] < occurrences l ["A"; "B"; "B"; "A"]) ->
       best = l).
Proof.
  apply (proj1 get_best_prediction_majority ["A"; "B"; "B"; "A"]). discriminate.
Defined.

(** C3: the list returned by [find_matching_patterns] holds, up to order,
    exactly one occurrence of a pattern's outcome for each matching
    (pattern, window-offset) pair; a pair matches when the window at that
    offset lies inside [results] and equals the pattern label by label;
    distinct pairs are counted separately, overlapping windows included.
    The pattern ["Big,Small"] matches [["Big";"Small";"Big";"Small"]] at the
    offsets 0 and 2; ["big"] does not match ["Big"], nor ["Small,Big"] the
    history [["Big";"Small"]]. *)
Theorem find_matching_patterns_windows :
  (forall patterns results,
     find_matching_patterns patterns results
     ≡ₚ (fun p => p.1.2) <$> Spec.matching_pairs patterns results) /\
  (forall patterns results k o i,
     (k, o, i) ∈ Spec.matching_pairs patterns results
     <-> (k, o) ∈ patterns /\
         i + length (Py.split "," k) <= length results /\
         forall j x, Py.split "," k !! j = Some x -> results !! (i + j) = Some x) /\
  (forall patterns results,
     Py.dict_wf patterns -> NoDup (Spec.matching_pairs patterns results)) /\
  find_matching_patterns [("Big,Small", "X")] ["Big"; "Small"; "Big"; "Small"]
  = ["X"; "X"] /\
  Spec.matching_pairs [("Big,Small", "X")] ["Big"; "Small"; "Big"; "Small"]
  = [("Big,Small", "X", 0); ("Big,Small", "X", 2)] /\
  find_matching_patterns [("big", "X")] ["Big"] = [] /\
  find_matching_patterns [("Small,Big", "X")] ["Big"; "Small"] = [].
Proof.
  split; [|split; [|split; [|split; [|split; [|split]]]]].
  - intros patterns results. by rewrite find_matching_patterns_pairs.
  - intros patterns results k o i. apply matching_pairs_elem.
  - intros patterns results Hwf. apply matching_pairs_NoDup.
    by apply (NoDup_fmap_1 fst).
  - by vm_compute.
  - by vm_compute.
  - by vm_compute.
  - by vm_compute.
Qed.

Lemma find_matching_patterns_windows_witness :
  NoDup (Spec.matching_pairs [("Big,Small", "Small"); ("Small,Big", "Big")]
           ["Big"; "Small"; "Big"]).
Proof.
  apply (proj1 (proj2 (proj2 find_matching_patterns_windows))).
  unfold Py.dict_wf. simpl. apply NoDup_cons. split.
  - intros Hin. apply list_elem_of_singleton in Hin. discriminate.
  - apply NoDup_singleton.
Defined.

(** C4: a pattern longer than [results] contributes nothing: alone it yields
    the empty list, and inside a table the output is the same as without it. *)
Theorem find_matching_patterns_too_long p1 k o p2 results :
  length (Py.split "," k) > length results ->
  find_matching_patterns [(k, o)] results = [] /\
  find_matching_patterns (p1 ++ (k, o) :: p2) results
  = find_matching_patterns (p1 ++ p2) results.
Proof.
  intros Hlen.
  assert (Hc : Spec.contribution results (k, o) = []).
  { unfold Spec.contribution, Spec.matching_offsets. simpl.
    by rewrite decide_True by lia. }
  split.
  - by rewrite find_matching_patterns_cons, Hc.
  - by rewrite !find_matching_patterns_app, find_matching_patterns_cons, Hc.
Qed.

Lemma find_matching_patterns_too_long_witness :
  find_matching_patterns [("A,B,A,B,A", "B")] ["A"; "B"; "A"] = [] /\
  find_matching_patterns ([("A,B", "A")] ++ ("A,B,A,B,A", "B") :: [("B", "B")])
    ["A"; "B"; "A"]
  = find_matching_patterns ([("A,B", "A")] ++ [("B", "B")]) ["A"; "B"; "A"].
Proof.
  apply (find_matching_patterns_too_long
           [("A,B", "A")] "A,B,A,B,A" "B" [("B", "B")] ["A"; "B"; "A"]).
  vm_compute. lia.
Defined.

(** C5: [predict] returns no prediction exactly when
    [find_matching_patterns] returns the empty list, which is the case for
    an empty table, for an empty history and when no pattern matches any
    window; otherwise it returns one label, one of the matched outcomes. *)
Theorem predict_none_iff_no_match patterns results :
  (predict patterns results = None
   <-> find_matching_patterns patterns results = []) /\
  find_matching_patterns [] results = [] /\
  predict [] results = None /\
  find_matching_patterns patterns [] = [] /\
  predict patterns [] = None /\
  ((forall k o i, (k, o) ∈ patterns ->
      ~ Spec.window_matches results (Py.split "," k) i) ->
   predict patterns results = None) /\
  (find_matching_patterns patterns results <> [] ->
   exists l, predict patterns results = Some l /\
     l ∈ find_matching_patterns patterns results).
Proof.
  split; [apply get_best_prediction_None|].
  split; [done|]. split; [done|].
  assert (Hnil : find_matching_patterns patterns [] = []).
  { unfold find_matching_patterns. by rewrite orb_true_r. }
  split; [done|]. split; [unfold predict; by rewrite Hnil|]. split.
  - intros Hno. apply get_best_prediction_None.
    destruct (find_matching_patterns patterns results) as [|x ms] eqn:Hms; [done|].
    assert (Hx : x ∈ find_matching_patterns patterns results) by (rewrite Hms; left).
    apply find_matching_patterns_elem in Hx as (k & i & Hin & Hw).
    by destruct (Hno k x i Hin).
  - apply get_best_prediction_Some.
Qed.

Lemma predict_none_iff_no_match_witness :
  predict [("Big,Big", "Small")] ["Big"; "Small"; "Big"] = None /\
  (exists l, predict [("Big,Small", "Small")] ["Big"; "Small"; "Big"] = Some l /\
     l ∈ find_matching_patterns [("Big,Small", "Small")] ["Big"; "Small"; "Big"]).
Proof.
  split.
  - apply (proj1 (predict_none_iff_no_match
                    [("Big,Big", "Small")] ["Big"; "Small"; "Big"])).
    by vm_compute.
  - apply (proj2 (proj2 (proj2 (proj2 (proj2 (proj2
             (predict_none_iff_no_match
                [("Big,Small", "Small")] ["Big"; "Small"; "Big"]))))))).
    by vm_compute.
Defined.

(** ** Order of the matches *)

Lemma bind_split {A B} (f : A -> list B) (l : list A) : forall pre x post,
  l ≫= f = pre ++ x :: post ->
  exists l1 a l2, l = l1 ++ a :: l2 /\ x ∈ f a /\ forall y, y ∈ l1 ≫= f -> y ∈ pre.
Proof.
  induction l as [|a l IH]; intros pre x post Heq.
  - by destruct pre.
  - rewrite bind_cons in Heq.
    apply app_eq_inv in Heq as [(k & Hfa & Hk)|(k & Hpre & Hrest)].
    + destruct k as [|y k].
      * simpl in Hk. symmetry in Hk.
        destruct (IH [] x post Hk) as (l1 & a' & l2 & -> & Hx & Hl1).
        exists (a :: l1), a', l2. split; [done|]. split; [done|].
        intros y Hy. rewrite bind_cons in Hy.
        apply elem_of_app in Hy as [Hy|Hy].
        -- by rewrite Hfa, app_nil_r in Hy.
        -- by apply Hl1, elem_of_nil in Hy.
      * injection Hk as <- _. exists [], a, l. split; [done|]. split.
        -- rewrite Hfa. apply elem_of_app. right. left.
        -- intros z Hz. by apply elem_of_nil in Hz.
    + destruct (IH k x post Hrest) as (l1 & a' & l2 & -> & Hx & Hl1).
      exists (a :: l1), a', l2. split; [done|]. split; [done|].
      intros y Hy. rewrite bind_cons in Hy. rewrite Hpre.
      apply elem_of_app in Hy as [Hy|Hy]; apply elem_of_app; [by left|].
      right. by apply Hl1.
Qed.

(** The winner is the outcome of a matching pattern, and every matching
    pattern that stands earlier in the table has an outcome with strictly
    fewer matches. *)
Lemma predict_earliest_pattern patterns results best :
  predict patterns results = Some best ->
  exists p1 k p2,
    patterns = p1 ++ (k, best) :: p2 /\
    Spec.matching_offsets results (Py.split "," k) <> [] /\
    forall k' o', (k', o') ∈ p1 ->
      Spec.matching_offsets results (Py.split "," k') <> [] ->
      occurrences o' (find_matching_patterns patterns results)
      < occurrences best (find_matching_patterns patterns results).
Proof.
  unfold predict. intros Hbest.
  assert (Hne : find_matching_patterns patterns results <> []).
  { intros Hnil. by rewrite Hnil in Hbest. }
  destruct (get_best_prediction_first_max _ Hne)
    as (best' & pre & post & Hb & Hs & Hpre & _).
  assert (best' = best) as -> by congruence.
  pose proof Hs as Hbind. rewrite find_matching_patterns_bind in Hbind.
  apply bind_split in Hbind as (p1 & [k o] & p2 & -> & Hx & Hp1).
  apply contribution_elem in Hx as [-> Hoffs].
  exists p1, k, p2. split; [done|]. split; [done|].
  intros k' o' Hin Hoffs'. apply Hpre, Hp1, list_elem_of_bind.
  exists (k', o'). split; [|done]. by apply contribution_elem.
Qed.

(** ** The empty key *)

Lemma matching_offsets_single results x :
  Spec.matching_offsets results [x] = Spec.positions_of x results.
Proof.
  unfold Spec.matching_offsets, Spec.positions_of. simpl.
  case_decide as Hlen.
  - by destruct results; [|simpl in Hlen; lia].
  - replace (length results - 1 + 1) with (length results) by lia.
    apply filter_ext_in. intros i _.
    rewrite (window_eqb_spec results [x] i). unfold Spec.window_matches. simpl. split.
    + intros [_ Hall]. specialize (Hall 0 x eq_refl). by rewrite Nat.add_0_r in Hall.
    + intros Hi. split; [apply lookup_lt_Some in Hi; lia|].
      intros [|j] y Hy; simpl in Hy; [|by rewrite lookup_nil in Hy].
      injection Hy as <-. by rewrite Nat.add_0_r.
Qed.

Lemma length_positions_of x results :
  length (Spec.positions_of x results) = occurrences x results.
Proof.
  unfold Spec.positions_of.
  induction results as [|y results IH] using rev_ind; [done|].
  rewrite length_app, occurrences_snoc. simpl.
  rewrite seq_app, filter_app, length_app. simpl. f_equal.
  - rewrite <- IH. f_equal. apply filter_ext_in. intros i Hi.
    apply elem_of_seq in Hi. by rewrite lookup_app_l by lia.
  - rewrite filter_cons, filter_nil, list_lookup_middle by done.
    destruct (decide (y = x)) as [->|Hne].
    + by rewrite decide_True.
    + rewrite decide_False; [done | congruence].
Qed.

(** C9: the returned list has a fixed order: it is the concatenation, in
    table order, of each pattern's outcome repeated once per matching
    offset, the offsets of a pattern being taken in ascending order; hence
    the label that [predict] returns is the outcome of a matching pattern
    such that every matching pattern earlier in the table has an outcome
    with strictly fewer matches. *)
Theorem find_matching_patterns_order patterns results :
  find_matching_patterns patterns results
  = (patterns ≫= fun item =>
       replicate (length (Spec.matching_offsets results (Py.split "," item.1))) item.2) /\
  find_matching_patterns patterns results
  = (fun p => p.1.2) <$> Spec.matching_pairs patterns results /\
  (forall pattern, StronglySorted lt (Spec.matching_offsets results pattern)) /\
  (forall pattern i,
     i ∈ Spec.matching_offsets results pattern
     <-> Spec.window_matches results pattern i) /\
  (forall best, predict patterns results = Some best ->
     exists p1 k p2,
       patterns = p1 ++ (k, best) :: p2 /\
       Spec.matching_offsets results (Py.split "," k) <> [] /\
       forall k' o', (k', o') ∈ p1 ->
         Spec.matching_offsets results (Py.split "," k') <> [] ->
         occurrences o' (find_matching_patterns patterns results)
         < occurrences best (find_matching_patterns patterns results)).
Proof.
  split; [apply find_matching_patterns_bind|].
  split; [apply find_matching_patterns_pairs|].
  split; [intros; apply matching_offsets_sorted|].
  split; [intros; apply matching_offsets_elem|].
  apply predict_earliest_pattern.
Qed.

Lemma find_matching_patterns_order_witness :
  exists p1 k p2,
    [("Big,Small", "Small"); ("Small,Big", "Big")] = p1 ++ (k, "Small") :: p2 /\
    Spec.matching_offsets ["Big"; "Small"; "Big"] (Py.split "," k) <> [] /\
    forall k' o', (k', o') ∈ p1 ->
      Spec.matching_offsets ["Big"; "Small"; "Big"] (Py.split "," k') <> [] ->
      occurrences o'
        (find_matching_patterns [("Big,Small", "Small"); ("Small,Big", "Big")]
           ["Big"; "Small"; "Big"])
      < occurrences "Small"
          (find_matching_patterns [("Big,Small", "Small"); ("Small,Big", "Big")]
             ["Big"; "Small"; "Big"]).
Proof.
  apply (proj2 (proj2 (proj2 (proj2
           (find_matching_patterns_order
              [("Big,Small", "Small"); ("Small,Big", "Big")]
              ["Big"; "Small"; "Big"]))))).
  by vm_compute.
Defined.

(** C10: the key [""] splits into the one-label pattern [[""]]; it matches
    exactly at the offsets where [results] holds the empty label, and
    contributes its outcome once per such offset, alone or inside a table,
    and nothing when no element of [results] is the empty label. *)
Theorem empty_key_pattern o results :
  Py.split "," "" = [""] /\
  (forall i, Spec.window_matches results (Py.split "," "") i
             <-> results !! i = Some "") /\
  find_matching_patterns [("", o)] results
  = (fun _ => o) <$> Spec.positions_of "" results /\
  find_matching_patterns [("", o)] results = replicate (occurrences "" results) o /\
  (forall p1 p2,
     find_matching_patterns (p1 ++ ("", o) :: p2) results
     = find_matching_patterns p1 results
       ++ replicate (occurrences "" results) o
       ++ find_matching_patterns p2 results) /\
  ("" ∉ results -> find_matching_patterns [("", o)] results = []).
Proof.
  assert (Hc : Spec.contribution results ("", o)
               = replicate (occurrences "" results) o).
  { unfold Spec.contribution. simpl.
    by rewrite matching_offsets_single, length_positions_of. }
  assert (Hone : find_matching_patterns [("", o)] results
                 = replicate (occurrences "" results) o).
  { by rewrite find_matching_patterns_cons, Hc, app_nil_r. }
  split; [done|]. split; [|split; [|split; [done|split]]].
  - intros i. rewrite <- matching_offsets_elem. simpl.
    rewrite matching_offsets_single. unfold Spec.positions_of.
    rewrite list_elem_of_filter, elem_of_seq. split; [tauto|].
    intros Hi. split; [done|]. apply lookup_lt_Some in Hi. lia.
  - rewrite Hone, <- length_positions_of. symmetry. by apply const_fmap.
  - intros p1 p2.
    by rewrite find_matching_patterns_app, find_matching_patterns_cons, Hc.
  - intros Hnot. by rewrite Hone, occurrences_not_elem.
Qed.

Lemma empty_key_pattern_witness :
  find_matching_patterns [("", "Big")] ["Big"; "Small"] = [].
Proof.
  apply (proj2 (proj2 (proj2 (proj2 (proj2
           (empty_key_pattern "Big" ["Big"; "Small"])))))).
  intros Hin. apply elem_of_cons in Hin as [Hin|Hin]; [discriminate|].
  apply list_elem_of_singleton in Hin. discriminate.
Defined.

(** ** The calls on the store *)

(** C6: on every table and every history, the empty ones included, the
    three functions return and raise nothing; with an empty table or an
    empty history [find_matching_patterns] returns the empty list and
    [predict] returns no prediction, and [get_best_prediction] returns no
    prediction for the empty list. *)
Theorem matcher_never_raises h patterns results d l :
  h !! patterns = Some (ODict d) ->
  h !! results = Some (OList l) ->
  (exists r h',
     Store.find_matching_patterns patterns results h = Returns r h' /\
     h' !! r = Some (OList (find_matching_patterns d l)) /\
     (d = [] \/ l = [] -> h' !! r = Some (OList []))) /\
  (forall mp ms, h !! mp = Some (OList ms) ->
     exists h',
       Store.get_best_prediction mp h = Returns (get_best_prediction ms) h' /\
       (ms = [] -> get_best_prediction ms = None)) /\
  (exists h',
     Store.predict patterns results h = Returns (predict d l) h' /\
     (d = [] \/ l = [] -> predict d l = None)).
Proof.
  intros Hp Hr.
  assert (Hempty : d = [] \/ l = [] -> find_matching_patterns d l = []).
  { intros [->| ->]; [done|]. unfold find_matching_patterns. by rewrite orb_true_r. }
  split; [|split].
  - eexists _, _. split; [by apply find_matching_patterns_run|].
    split; [by apply list_lookup_middle|].
    intros He. rewrite <- (Hempty He). by apply list_lookup_middle.
  - intros mp ms Hm. eexists. split; [by apply get_best_prediction_run|]. by intros ->.
  - eexists. split; [by apply predict_run|].
    intros He. unfold predict. by rewrite (Hempty He).
Qed.

Lemma matcher_never_raises_witness :
  (exists r h',
     Store.find_matching_patterns 0 1 [ODict []; OList ["Big"]] = Returns r h' /\
     h' !! r = Some (OList (find_matching_patterns [] ["Big"])) /\
     (@nil (string * string) = [] \/ ["Big"] = [] -> h' !! r = Some (OList []))) /\
  (forall mp ms, [ODict []; OList ["Big"]] !! mp = Some (OList ms) ->
     exists h',
       Store.get_best_prediction mp [ODict []; OList ["Big"]]
       = Returns (get_best_prediction ms) h' /\
       (ms = [] -> get_best_prediction ms = None)) /\
  (exists h',
     Store.predict 0 1 [ODict []; OList ["Big"]] = Returns (predict [] ["Big"]) h' /\
     (@nil (string * string) = [] \/ ["Big"] = [] -> predict [] ["Big"] = None)).
Proof.
  apply (matcher_never_raises [ODict []; OList ["Big"]] 0 1 [] ["Big"]);
    reflexivity.
Defined.

(** C7: a call of [find_matching_patterns] or of [predict] leaves every
    object that existed before the call as it was, the table and the
    history in particular: the store after the call is the store before it
    followed by the objects the call created. *)
Theorem arguments_not_mutated h patterns results d l :
  h !! patterns = Some (ODict d) ->
  h !! results = Some (OList l) ->
  (exists h' fresh,
     final_heap (Store.find_matching_patterns patterns results h) = Some h' /\
     h' = h ++ fresh /\
     h' !! patterns = Some (ODict d) /\
     h' !! results = Some (OList l)) /\
  (exists h' fresh,
     final_heap (Store.predict patterns results h) = Some h' /\
     h' = h ++ fresh /\
     h' !! patterns = Some (ODict d) /\
     h' !! results = Some (OList l)).
Proof.
  intros Hp Hr.
  assert (Hkeep : forall fresh,
            (h ++ fresh) !! patterns = Some (ODict d) /\
            (h ++ fresh) !! results = Some (OList l)).
  { intros fresh. split; (rewrite lookup_app_l; [done|]).
    - by apply lookup_lt_Some in Hp.
    - by apply lookup_lt_Some in Hr. }
  split.
  - rewrite (find_matching_patterns_run h patterns results d l Hp Hr).
    eexists _, _. split; [done|]. split; [done|]. apply Hkeep.
  - rewrite (predict_run h patterns results d l Hp Hr).
    eexists _, _. split; [done|]. split; [done|]. apply Hkeep.
Qed.

Lemma arguments_not_mutated_witness :
  (exists h' fresh,
     final_heap (Store.find_matching_patterns 0 1
                   [ODict [("Big,Small", "X")]; OList ["Big"; "Small"]]) = Some h' /\
     h' = [ODict [("Big,Small", "X")]; OList ["Big"; "Small"]] ++ fresh /\
     h' !! 0 = Some (ODict [("Big,Small", "X")]) /\
     h' !! 1 = Some (OList ["Big"; "Small"])) /\
  (exists h' fresh,
     final_heap (Store.predict 0 1
                   [ODict [("Big,Small", "X")]; OList ["Big"; "Small"]]) = Some h' /\
     h' = [ODict [("Big,Small", "X")]; OList ["Big"; "Small"]] ++ fresh /\
     h' !! 0 = Some (ODict [("Big,Small", "X")]) /\
     h' !! 1 = Some (OList ["Big"; "Small"])).
Proof.
  apply (arguments_not_mutated
           [ODict [("Big,Small", "X")]; OList ["Big"; "Small"]] 0 1
           [("Big,Small", "X")] ["Big"; "Small"]); reflexivity.
Defined.

(** C8: the value [predict] returns is a function of the contents of its
    two arguments alone: in any two stores, whatever else they hold and
    wherever the arguments lie, calls on equal tables and equal histories
    return the same value, and so does a second call after a first one. *)
Theorem predict_deterministic h1 h2 p1 r1 p2 r2 d l :
  h1 !! p1 = Some (ODict d) ->
  h1 !! r1 = Some (OList l) ->
  h2 !! p2 = Some (ODict d) ->
  h2 !! r2 = Some (OList l) ->
  returned (Store.predict p1 r1 h1) = Some (predict d l) /\
  returned (Store.predict p2 r2 h2) = returned (Store.predict p1 r1 h1) /\
  returned ((run Store.predict p1 r1 in Store.predict p1 r1) h1)
  = returned (Store.predict p1 r1 h1).
Proof.
  intros Hp1 Hr1 Hp2 Hr2.
  rewrite (predict_run h2 p2 r2 d l Hp2 Hr2).
  erewrite (bind_Returns (Store.predict p1 r1)); [|by apply predict_run].
  rewrite (predict_run h1 p1 r1 d l Hp1 Hr1).
  split; [done|]. split; [done|].
  erewrite predict_run; [done| |]; (rewrite lookup_app_l; [done|]).
  - by apply lookup_lt_Some in Hp1.
  - by apply lookup_lt_Some in Hr1.
Qed.

Lemma predict_deterministic_witness :
  returned (Store.predict 0 1
              [ODict [("Big,Small", "X")]; OList ["Big"; "Small"]])
  = Some (predict [("Big,Small", "X")] ["Big"; "Small"]) /\
  returned (Store.predict 2 0
              [OList ["Big"; "Small"]; OCounts [("X", 7%Z)]; ODict [("Big,Small", "X")]])
  = returned (Store.predict 0 1
                [ODict [("Big,Small", "X")]; OList ["Big"; "Small"]]) /\
  returned ((run Store.predict 0 1 in Store.predict 0 1)
              [ODict [("Big,Small", "X")]; OList ["Big"; "Small"]])
  = returned (Store.predict 0 1
                [ODict [("Big,Small", "X")]; OList ["Big"; "Small"]]).
Proof.
  apply (predict_deterministic
           [ODict [("Big,Small", "X")]; OList ["Big"; "Small"]]
           [OList ["Big"; "Small"]; OCounts [("X", 7%Z)]; ODict [("Big,Small", "X")]]
           0 1 2 0 [("Big,Small", "X")] ["Big"; "Small"]); reflexivity.
Defined.

(** * The collaborators of the matcher: properties *)

(** ** Keys of the pattern table: [join] and [split] *)

Lemma join_cons_cons sep x y l :
  Py.join sep (x :: y :: l) = x +:+ sep +:+ Py.join sep (y :: l).
Proof. reflexivity. Qed.

Lemma split_comma_free w :
  PyMore.has_char "," w = false -> Py.split "," w = [w].
Proof.
  induction w as [|c w IH]; simpl; [done|].
  intros [Hc Hw]%orb_false_iff. rewrite Hc, IH by done. done.
Qed.

Lemma split_app_comma w rest :
  PyMore.has_char "," w = false ->
  Py.split "," (w +:+ "," +:+ rest) = w :: Py.split "," rest.
Proof.
  induction w as [|c w IH]; simpl; [done|].
  intros [Hc Hw]%orb_false_iff. rewrite Hc, IH by done. done.
Qed.

Lemma split_join pattern :
  pattern <> [] ->
  Forall (fun label => PyMore.has_char "," label = false) pattern ->
  Py.split "," (Py.join "," pattern) = pattern.
Proof.
  intros Hne Hall. induction Hall as [|x l Hx Hl IH]; [done|].
  destruct l as [|y l].
  - simpl. by apply split_comma_free.
  - rewrite join_cons_cons, split_app_comma by done. f_equal. by apply IH.
Qed.

(** X1: a pattern that [add_pattern] stored under the key [','.join(pattern)]
    is read back by the matcher as the same list of labels, provided the
    pattern is not empty and no label contains a comma; so two such patterns
    that are stored under the same key are the same pattern. *)
Theorem split_join_pattern pattern :
  pattern <> [] ->
  Forall (fun label => PyMore.has_char "," label = false) pattern ->
  Py.split "," (Py.join "," pattern) = pattern /\
  forall pattern',
    pattern' <> [] ->
    Forall (fun label => PyMore.has_char "," label = false) pattern' ->
    Py.join "," pattern' = Py.join "," pattern -> pattern' = pattern.
Proof.
  intros Hne Hall. split; [by apply split_join|].
  intros pattern' Hne' Hall' Heq.
  by rewrite <- (split_join pattern'), Heq, split_join.
Qed.

Lemma split_join_pattern_witness :
  Py.split "," (Py.join "," ["Big"; "Big"; "Small"]) = ["Big"; "Big"; "Small"].
Proof.
  refine (proj1 (split_join_pattern ["Big"; "Big"; "Small"] _ _)).
  - discriminate.
  - repeat constructor.
Defined.

(** X2: every key is the join of its own split, so the labels the matcher
    reads from a key name that key again when they are passed to
    [add_pattern] or [remove_pattern]; and the labels read from a key never
    contain a comma. *)
Theorem join_split_key key :
  Py.join "," (Py.split "," key) = key /\
  Forall (fun label => PyMore.has_char "," label = false) (Py.split "," key).
Proof.
  induction key as [|c key [IHj IHf]]; [by split; [|repeat constructor]|].
  simpl. destruct (Ascii.eqb_spec c ",") as [->|Hc].
  - pose proof (split_not_nil "," key) as Hne.
    destruct (Py.split "," key) as [|w ws] eqn:Hs; [done|].
    split; [|by constructor].
    rewrite join_cons_cons, IHj. done.
  - pose proof (split_not_nil "," key) as Hne.
    destruct (Py.split "," key) as [|w ws] eqn:Hs; [done|].
    apply Forall_cons in IHf as [Hw Hws]. split.
    + destruct ws as [|w' ws]; simpl in *; by rewrite <- IHj.
    + constructor; [|done]. simpl. rewrite Hw.
      by destruct (Ascii.eqb_spec c ",").
Qed.

(** ** Lookups after assignments and deletions *)

Lemma lookup_dict_set_eq {V} (d : Py.dict V) k v :
  PyMore.lookup (Py.dict_set d k v) k = Some v.
Proof.
  induction d as [|[k0 v0] d IH]; simpl.
  - by rewrite String.eqb_refl.
  - destruct (String.eqb_spec k0 k) as [->|Hne]; simpl.
    + by rewrite String.eqb_refl.
    + destruct (String.eqb_spec k0 k); [done | apply IH].
Qed.

Lemma lookup_dict_set_ne {V} (d : Py.dict V) k k' v :
  k <> k' -> PyMore.lookup (Py.dict_set d k v) k' = PyMore.lookup d k'.
Proof.
  intros Hne. induction d as [|[k0 v0] d IH]; simpl.
  - by destruct (String.eqb_spec k k').
  - destruct (String.eqb_spec k0 k) as [->|Hk0]; simpl.
    + by destruct (String.eqb_spec k k').
    + by destruct (String.eqb_spec k0 k').
Qed.

Lemma dict_get_lookup {V} (d : Py.dict V) k dflt :
  Py.dict_get d k dflt = default dflt (PyMore.lookup d k).
Proof.
  induction d as [|[k0 v0] d IH]; simpl; [done|].
  by destruct (String.eqb k0 k).
Qed.




Lemma lookup_None_not_key {V} (d : Py.dict V) k :
  PyMore.lookup d k = None <-> k ∉ d.*1.
Proof.
  induction d as [|[k0 v0] d IH]; simpl.
  - split; [intros _; apply not_elem_of_nil | done].
  - rewrite not_elem_of_cons. destruct (String.eqb_spec k0 k) as [->|Hne].
    + split; [done | by intros [? _]].
    + rewrite IH. split; [intros ?; split; [congruence | done] | by intros [_ ?]].
Qed.

Lemma lookup_del_eq {V} (d : Py.dict V) k :
  Py.dict_wf d -> PyMore.lookup (PyMore.del d k) k = None.
Proof.
  unfold Py.dict_wf. induction d as [|[k0 v0] d IH]; simpl; [done|].
  intros [Hk0 Hnd]%NoDup_cons.
  destruct (String.eqb_spec k0 k) as [->|Hne].
  - by apply lookup_None_not_key.
  - simpl. destruct (String.eqb_spec k0 k); [done | by apply IH].
Qed.

Lemma lookup_del_ne {V} (d : Py.dict V) k k' :
  k <> k' -> PyMore.lookup (PyMore.del d k) k' = PyMore.lookup d k'.
Proof.
  intros Hne. induction d as [|[k0 v0] d IH]; simpl; [done|].
  destruct (String.eqb_spec k0 k) as [->|Hk0]; simpl.
  - by destruct (String.eqb_spec k k').
  - by destruct (String.eqb_spec k0 k').
Qed.

Lemma mem_lookup {V} (d : Py.dict V) k :
  PyMore.mem d k = true <-> exists v, PyMore.lookup d k = Some v.
Proof.
  unfold PyMore.mem. destruct (PyMore.lookup d k) as [v|].
  - split; [by exists v | done].
  - split; [done | by intros [v Hv]].
Qed.

Lemma lookup_elem_of {V} (d : Py.dict V) k v :
  PyMore.lookup d k = Some v -> (k, v) ∈ d.
Proof.
  induction d as [|[k0 v0] d IH]; simpl; [done|].
  destruct (String.eqb_spec k0 k) as [->|Hne].
  - intros [= ->]. left.
  - intros Hl. right. by apply IH.
Qed.

Lemma del_split {V} (d : Py.dict V) k v :
  PyMore.lookup d k = Some v ->
  exists d1 d2, d = d1 ++ (k, v) :: d2 /\ PyMore.del d k = d1 ++ d2.
Proof.
  induction d as [|[k0 v0] d IH]; simpl; [done|].
  destruct (String.eqb_spec k0 k) as [->|Hne].
  - intros [= ->]. by exists [], d.
  - intros Hl. destruct (IH Hl) as (d1 & d2 & -> & ->).
    by exists ((k0, v0) :: d1), d2.
Qed.

Lemma window_matches_middle pre pattern post :
  Spec.window_matches (pre ++ pattern ++ post) pattern (length pre).
Proof.
  split; [rewrite !length_app; lia|]. intros j x Hj.
  rewrite lookup_app_r by lia.
  replace (length pre + j - length pre) with j by lia.
  by apply lookup_app_l_Some.
Qed.

Lemma predict_only_outcome table results o :
  o ∈ find_matching_patterns table results ->
  (forall x, x ∈ find_matching_patterns table results -> x = o) ->
  predict table results = Some o.
Proof.
  intros Ho Honly. apply get_best_prediction_strict_max; [done|].
  intros x Hx. rewrite (occurrences_not_elem x).
  - by apply occurrences_pos.
  - intros Hxin. by apply Hx, Honly.
Qed.

(** ** The pattern tables of [DataManager] *)

Section PatternTables.
Import DataManager.
Context {T O : Type} (isoformat : T -> string).
Implicit Types (m : @manager T O) (info : game_info).

Lemma save_data_games m : games (_save_data isoformat m) = games m.
Proof. reflexivity. Qed.

Lemma save_data_apps m : apps (_save_data isoformat m) = apps m.
Proof. reflexivity. Qed.

Lemma add_pattern_found m game pattern result info :
  PyMore.lookup (games m) game = Some info ->
  add_pattern isoformat m game pattern result
  = (true,
     _save_data isoformat
       (set_games m
          (Py.dict_set (games m) game
             (set_patterns info
                (Py.dict_set (default [] (patterns info))
                   (Py.join "," pattern) result))))).
Proof.
  unfold add_pattern. intros ->. by destruct info as [cd [ps|] rf].
Qed.

(** X3: [add_pattern] refuses an unknown game and changes nothing; for a
    known game it returns [True], the game's table then maps the joined
    pattern to the result, every other key of that table, the game's
    cooldown and result format, every other game and the list of apps are
    as before. *)
Theorem add_pattern_stores m game pattern result :
  (PyMore.lookup (games m) game = None ->
   add_pattern isoformat m game pattern result = (false, m)) /\
  (forall info, PyMore.lookup (games m) game = Some info ->
     exists info' table,
       (add_pattern isoformat m game pattern result).1 = true /\
       PyMore.lookup (games (add_pattern isoformat m game pattern result).2) game
       = Some info' /\
       patterns info' = Some table /\
       PyMore.lookup table (Py.join "," pattern) = Some result /\
       (forall k, k <> Py.join "," pattern ->
          PyMore.lookup table k = PyMore.lookup (default [] (patterns info)) k) /\
       cooldown info' = cooldown info /\
       result_format info' = result_format info /\
       (forall g, g <> game ->
          PyMore.lookup (games (add_pattern isoformat m game pattern result).2) g
          = PyMore.lookup (games m) g) /\
       apps (add_pattern isoformat m game pattern result).2 = apps m).
Proof.
  unfold add_pattern. split.
  - by intros ->.
  - intros info ->. simpl. eexists _, _.
    split; [done|]. split; [apply lookup_dict_set_eq|]. split; [done|].
    split; [apply lookup_dict_set_eq|]. split.
    + intros k Hk. rewrite lookup_dict_set_ne by done. by destruct info as [cd [ps|] rf].
    + split; [by destruct info as [cd [ps|] rf]|].
      split; [by destruct info as [cd [ps|] rf]|].
      split; [|done]. intros g Hg. by apply lookup_dict_set_ne.
Qed.

(** X4: once [add_pattern] has stored a non-empty pattern of comma-free
    labels for a known game, the matcher run on that game's table and on a
    history that contains the pattern as a window counts the result among
    its matches and returns a prediction; if the game had no pattern
    before, the prediction is that result. *)
Theorem add_pattern_then_predict m game pattern result info pre post :
  PyMore.lookup (games m) game = Some info ->
  pattern <> [] ->
  Forall (fun label => PyMore.has_char "," label = false) pattern ->
  exists info' table,
    PyMore.lookup (games (add_pattern isoformat m game pattern result).2) game
    = Some info' /\
    patterns info' = Some table /\
    result ∈ find_matching_patterns table (pre ++ pattern ++ post) /\
    (exists l, predict table (pre ++ pattern ++ post) = Some l) /\
    (default [] (patterns info) = [] ->
     predict table (pre ++ pattern ++ post) = Some result).
Proof.
  intros Hg Hne Hcf.
  rewrite (add_pattern_found m game pattern result info Hg). simpl.
  eexists _, _. split; [apply lookup_dict_set_eq|]. split; [done|].
  set (table := Py.dict_set _ _ _).
  assert (Hin : result ∈ find_matching_patterns table (pre ++ pattern ++ post)).
  { apply find_matching_patterns_elem. exists (Py.join "," pattern), (length pre).
    split; [apply lookup_elem_of, lookup_dict_set_eq|].
    rewrite split_join by done. apply window_matches_middle. }
  split; [done|]. split.
  - destruct (get_best_prediction_Some
                (find_matching_patterns table (pre ++ pattern ++ post)))
      as (l & Hl & _); [|by exists l].
    intros Hnil. rewrite Hnil in Hin. by apply elem_of_nil in Hin.
  - intros Hempty. apply predict_only_outcome; [done|].
    intros x Hx. apply find_matching_patterns_elem in Hx as (k & i & Hk & _).
    subst table. rewrite Hempty in Hk. simpl in Hk.
    apply list_elem_of_singleton in Hk. congruence.
Qed.

End PatternTables.

Lemma add_pattern_then_predict_witness :
  exists info' table,
    PyMore.lookup
      (DataManager.games
         (DataManager.add_pattern Sample.iso Sample.state
            "WINGO" ["Big"; "Small"] "Small").2) "WINGO"
    = Some info' /\
    DataManager.patterns info' = Some table /\
    "Small" ∈ find_matching_patterns table (["Small"] ++ ["Big"; "Small"] ++ ["Big"]) /\
    (exists l, predict table (["Small"] ++ ["Big"; "Small"] ++ ["Big"]) = Some l) /\
    (default [] (DataManager.patterns Sample.wingo) = [] ->
     predict table (["Small"] ++ ["Big"; "Small"] ++ ["Big"]) = Some "Small").
Proof.
  apply (add_pattern_then_predict Sample.iso Sample.state
           "WINGO" ["Big"; "Small"] "Small" Sample.wingo ["Small"] ["Big"]).
  - reflexivity.
  - discriminate.
  - repeat constructor.
Defined.

Lemma add_pattern_stores_witness :
  DataManager.add_pattern Sample.iso Sample.state "K3" ["Big"] "Small"
  = (false, Sample.state).
Proof.
  apply (proj1 (add_pattern_stores Sample.iso Sample.state "K3" ["Big"] "Small")).
  reflexivity.
Defined.

Section PatternRemoval.
Import DataManager.
Context {T O : Type} (isoformat : T -> string).
Implicit Types (m : @manager T O) (info : game_info).

Lemma remove_pattern_found m game pattern info table :
  PyMore.lookup (games m) game = Some info ->
  patterns info = Some table ->
  PyMore.mem table (Py.join "," pattern) = true ->
  remove_pattern isoformat m game pattern
  = (true,
     _save_data isoformat
       (set_games m
          (Py.dict_set (games m) game
             (set_patterns info (PyMore.del table (Py.join "," pattern)))))).
Proof. unfold remove_pattern. by intros -> -> ->. Qed.

(** X5: [remove_pattern] returns [True] exactly when the game is known, has
    a table and the table holds the joined pattern; when it returns [False]
    nothing has changed; when it returns [True], the key is gone from the
    game's table (whose keys are distinct) and every other key keeps its
    outcome. *)
Theorem remove_pattern_result m game pattern :
  ((remove_pattern isoformat m game pattern).1 = true
   <-> exists info table,
         PyMore.lookup (games m) game = Some info /\
         patterns info = Some table /\
         PyMore.mem table (Py.join "," pattern) = true) /\
  ((remove_pattern isoformat m game pattern).1 = false ->
   (remove_pattern isoformat m game pattern).2 = m) /\
  (forall info table,
     PyMore.lookup (games m) game = Some info ->
     patterns info = Some table ->
     PyMore.mem table (Py.join "," pattern) = true ->
     Py.dict_wf table ->
     exists info' table',
       PyMore.lookup (games (remove_pattern isoformat m game pattern).2) game
       = Some info' /\
       patterns info' = Some table' /\
       PyMore.lookup table' (Py.join "," pattern) = None /\
       forall k, k <> Py.join "," pattern ->
         PyMore.lookup table' k = PyMore.lookup table k).
Proof.
  split; [|split].
  - split.
    + unfold remove_pattern.
      destruct (PyMore.lookup (games m) game) as [info|] eqn:Hg; [|done].
      destruct (patterns info) as [table|] eqn:Ht; [|done].
      destruct (PyMore.mem table (Py.join "," pattern)) eqn:Hmem; [|done].
      intros _. by exists info, table.
    + intros (info & table & Hg & Ht & Hmem).
      by rewrite (remove_pattern_found m game pattern info table).
  - unfold remove_pattern.
    destruct (PyMore.lookup (games m) game) as [info|]; [|done].
    destruct (patterns info) as [table|]; [|done].
    by destruct (PyMore.mem table (Py.join "," pattern)).
  - intros info table Hg Ht Hmem Hwf.
    rewrite (remove_pattern_found m game pattern info table) by done. simpl.
    eexists _, _. split; [apply lookup_dict_set_eq|]. split; [done|].
    split; [by apply lookup_del_eq|]. intros k Hk. by apply lookup_del_ne.
Qed.


(** X7: when [remove_pattern] succeeds, the matcher loses exactly the
    matches of the removed pattern: on every history, the matches of the
    old table are those of the removed entry together with those of the
    new table. *)
Theorem remove_pattern_matches m game pattern info table o results :
  PyMore.lookup (games m) game = Some info ->
  patterns info = Some table ->
  PyMore.lookup table (Py.join "," pattern) = Some o ->
  exists info' table',
    PyMore.lookup (games (remove_pattern isoformat m game pattern).2) game
    = Some info' /\
    patterns info' = Some table' /\
    find_matching_patterns table results
    ≡ₚ find_matching_patterns [(Py.join "," pattern, o)] results
       ++ find_matching_patterns table' results.
Proof.
  intros Hg Ht Hk.
  assert (Hmem : PyMore.mem table (Py.join "," pattern) = true).
  { apply mem_lookup. by exists o. }
  rewrite (remove_pattern_found m game pattern info table) by done. simpl.
  eexists _, _. split; [apply lookup_dict_set_eq|]. split; [done|].
  destruct (del_split table _ _ Hk) as (d1 & d2 & -> & ->).
  rewrite !find_matching_patterns_app.
  rewrite (find_matching_patterns_cons _ d2), (find_matching_patterns_cons _ []).
  rewrite find_matching_patterns_bind with (patterns := []). simpl.
  rewrite app_nil_r.
  by rewrite (assoc (++)), (comm (++) (find_matching_patterns d1 results)),
    <- (assoc (++)).
Qed.

End PatternRemoval.

Lemma remove_pattern_result_witness :
  (DataManager.remove_pattern Sample.iso Sample.state "WINGO" ["Big"]).2
  = Sample.state.
Proof.
  apply (proj1 (proj2 (remove_pattern_result Sample.iso Sample.state "WINGO" ["Big"]))).
  reflexivity.
Defined.


Lemma remove_pattern_matches_witness :
  exists info' table',
    PyMore.lookup
      (DataManager.games
         (DataManager.remove_pattern Sample.iso
            (DataManager.add_pattern Sample.iso Sample.state "WINGO" ["Big"] "Small").2
            "WINGO" ["Big"]).2) "WINGO"
    = Some info' /\
    DataManager.patterns info' = Some table' /\
    find_matching_patterns [("Big", "Small")] ["Big"; "Small"]
    ≡ₚ find_matching_patterns [(Py.join "," ["Big"], "Small")] ["Big"; "Small"]
       ++ find_matching_patterns table' ["Big"; "Small"].
Proof.
  apply (remove_pattern_matches Sample.iso
           (DataManager.add_pattern Sample.iso Sample.state "WINGO" ["Big"] "Small").2
           "WINGO" ["Big"]
           (DataManager.set_patterns Sample.wingo [("Big", "Small")])
           [("Big", "Small")] "Small" ["Big"; "Small"]); reflexivity.
Defined.

(** ** The stored histories of [DataManager] *)

Section Histories.
Import DataManager.
Context {T O : Type} (isoformat : T -> string).
Implicit Types (m : @manager T O) (u : @user T O) (us : list (ukey * @user T O)).

Lemma ukey_eqb_eq (a b : ukey) : ukey_eqb a b = true <-> a = b.
Proof.
  destruct a as [n|s], b as [n'|s']; simpl.
  - rewrite Z.eqb_eq. split; congruence.
  - split; discriminate.
  - split; discriminate.
  - rewrite String.eqb_eq. split; congruence.
Qed.

Lemma users_get_alter_eq (f : user -> user) us k :
  users_get (users_alter f us k) k = f <$> users_get us k.
Proof.
  induction us as [|[k0 u0] us IH]; simpl; [done|].
  destruct (ukey_eqb k0 k) eqn:Hk; simpl; rewrite Hk; [done | apply IH].
Qed.

Lemma users_get_alter_ne (f : user -> user) us k k' :
  k <> k' -> users_get (users_alter f us k) k' = users_get us k'.
Proof.
  intros Hne. induction us as [|[k0 u0] us IH]; simpl; [done|].
  destruct (ukey_eqb k0 k) eqn:Hk; simpl.
  - apply ukey_eqb_eq in Hk as ->.
    destruct (ukey_eqb k k') eqn:Hk'; [|done].
    by apply ukey_eqb_eq in Hk'.
  - destruct (ukey_eqb k0 k'); [done | apply IH].
Qed.

Lemma users_get_save us k :
  users_get (prod_map id (save_user isoformat) <$> us) k
  = save_user isoformat <$> users_get us k.
Proof.
  induction us as [|[k0 u0] us IH]; simpl; [done|].
  destruct (ukey_eqb k0 k); [done | apply IH].
Qed.

Lemma get_user_results_save m user_id app game :
  get_user_results (_save_data isoformat m) user_id app game
  = get_user_results m user_id app game.
Proof.
  unfold get_user_results, get_user. simpl. rewrite users_get_save.
  by destruct (users_get (users m) (KInt user_id)).
Qed.

Lemma get_user_results_found m user_id app game u :
  get_user m user_id = Some u ->
  get_user_results m user_id app game
  = Py.dict_get (default [] (last_results u)) (app +:+ "_" +:+ game) [].
Proof.
  unfold get_user_results. intros ->. by destruct (last_results u).
Qed.

(** X8: when the user has a non-empty stored history for the app and game
    and a non-empty last prediction for the game,
    [update_after_correct_prediction] appends the prediction to that
    history, dropping the oldest result if the history already held ten or
    more; the new history ends with the prediction and, if the old one had
    at most ten results, so has the new one. *)
Theorem update_after_correct_prediction_slides m user_id app game u p :
  get_user m user_id = Some u ->
  get_user_results m user_id app game <> [] ->
  PyMore.lookup (default [] (last_predictions u)) game ≫= lp_prediction = Some p ->
  p <> "" ->
  get_user_results
    (update_after_correct_prediction isoformat m user_id app game)
    user_id app game
  = (if (10 <=? length (get_user_results m user_id app game))%nat
     then drop 1 (get_user_results m user_id app game) ++ [p]
     else get_user_results m user_id app game ++ [p]) /\
  last (get_user_results
          (update_after_correct_prediction isoformat m user_id app game)
          user_id app game) = Some p /\
  (length (get_user_results m user_id app game) <= 10 ->
   length (get_user_results
             (update_after_correct_prediction isoformat m user_id app game)
             user_id app game)
   = Nat.min (S (length (get_user_results m user_id app game))) 10).
Proof.
  intros Hu Hne Hp Hp'.
  assert (Hnew : get_user_results
            (update_after_correct_prediction isoformat m user_id app game)
            user_id app game
          = (if (10 <=? length (get_user_results m user_id app game))%nat
             then drop 1 (get_user_results m user_id app game) ++ [p]
             else get_user_results m user_id app game ++ [p])).
  { rewrite (get_user_results_found m user_id app game u Hu) in *.
    unfold update_after_correct_prediction. rewrite Hu. cbv zeta.
    destruct (Py.dict_get (default [] (last_results u)) (app +:+ "_" +:+ game) [])
      as [|r rs] eqn:Hrs; [done|].
    cbn [Py.truthy negb]. rewrite Hp. destruct p as [|c p]; [done|].
    rewrite get_user_results_save.
    unfold get_user_results, get_user. cbn [users set_users].
    rewrite users_get_alter_eq.
    unfold get_user in Hu. rewrite Hu. cbn [fmap option_fmap option_map].
    cbn [last_results set_last_results].
    by rewrite dict_get_lookup, lookup_dict_set_eq. }
  rewrite Hnew. split; [done|]. split.
  - destruct (10 <=? _)%nat; apply last_snoc.
  - intros Hlen. destruct (Nat.leb_spec 10 (length (get_user_results m user_id app game))).
    + rewrite length_app, length_drop. simpl. lia.
    + rewrite length_app. simpl. lia.
Qed.

(** X9: [update_after_correct_prediction] changes nothing at all when the
    stored history for the app and game is empty or missing; in every case
    it leaves the stored history of every other user and of every other
    key, the games and the apps as they were. *)
Theorem update_after_correct_prediction_frame m user_id app game :
  (get_user_results m user_id app game = [] ->
   update_after_correct_prediction isoformat m user_id app game = m) /\
  (forall user_id' app' game',
     user_id' <> user_id \/ app' +:+ "_" +:+ game' <> app +:+ "_" +:+ game ->
     get_user_results
       (update_after_correct_prediction isoformat m user_id app game)
       user_id' app' game'
     = get_user_results m user_id' app' game') /\
  games (update_after_correct_prediction isoformat m user_id app game) = games m /\
  apps (update_after_correct_prediction isoformat m user_id app game) = apps m.
Proof.
  unfold update_after_correct_prediction.
  destruct (get_user m user_id) as [u|] eqn:Hu; [|done].
  cbv zeta.
  rewrite (get_user_results_found m user_id app game u Hu).
  destruct (Py.dict_get (default [] (last_results u)) (app +:+ "_" +:+ game) [])
    as [|r rs] eqn:Hrs; [done|].
  cbn [Py.truthy negb].
  destruct (PyMore.lookup (default [] (last_predictions u)) game ≫= lp_prediction)
    as [[|c p]|]; [done| |done].
  split; [done|]. split; [|done].
  intros user_id' app' game' Hother.
  rewrite get_user_results_save.
  unfold get_user_results at 1. unfold get_user. cbn [users set_users].
  destruct (decide (user_id' = user_id)) as [->|Hid].
  - rewrite users_get_alter_eq. unfold get_user in Hu. rewrite Hu.
    cbn [fmap option_fmap option_map last_results set_last_results].
    destruct Hother as [?|Hkey]; [done|].
    rewrite dict_get_lookup, lookup_dict_set_ne by done.
    rewrite <- dict_get_lookup.
    by rewrite (get_user_results_found m user_id app' game' u Hu).
  - rewrite users_get_alter_ne by congruence. done.
Qed.

End Histories.

Lemma update_after_correct_prediction_slides_witness :
  DataManager.get_user_results
    (DataManager.update_after_correct_prediction Sample.iso Sample.state 7 "1win" "WINGO")
    7 "1win" "WINGO"
  = ["Small"; "Big"; "Big"; "Small"; "Small"; "Big"; "Small"; "Big"; "Big"; "Small"].
Proof.
  apply (proj1 (update_after_correct_prediction_slides Sample.iso Sample.state
                  7 "1win" "WINGO" Sample.alice "Small"
                  eq_refl ltac:(discriminate) eq_refl ltac:(discriminate))).
Defined.

Lemma update_after_correct_prediction_frame_witness :
  DataManager.update_after_correct_prediction Sample.iso Sample.state 7 "1win" "K3"
  = Sample.state.
Proof.
  apply (proj1 (update_after_correct_prediction_frame Sample.iso Sample.state
                  7 "1win" "K3")).
  reflexivity.
Defined.

(** ** Apps and games of [DataManager] *)

Lemma contains_elem_of l x : PyMore.contains l x = true <-> x ∈ l.
Proof.
  unfold PyMore.contains. induction l as [|y l IH]; simpl.
  - split; [done | by intros ?%elem_of_nil].
  - rewrite orb_true_iff, IH, elem_of_cons, String.eqb_eq. done.
Qed.

Lemma remove_elem_of l x y :
  NoDup l -> y ∈ PyMore.remove l x <-> y ∈ l /\ y <> x.
Proof.
  induction l as [|z l IH]; simpl; intros Hnd.
  - split; [by intros ?%elem_of_nil | by intros [?%elem_of_nil _]].
  - apply NoDup_cons in Hnd as [Hz Hnd].
    destruct (String.eqb_spec z x) as [->|Hne].
    + rewrite elem_of_cons. split.
      * intros Hy. split; [by right|]. intros ->. done.
      * intros [[->|Hy] Hyx]; done.
    + rewrite !elem_of_cons, IH by done. split.
      * intros [->|[Hy Hyx]]; split; auto.
      * intros [[->|Hy] Hyx]; auto.
Qed.

Lemma remove_nil_inv l x : x ∈ l -> PyMore.remove l x = [] -> l = [x].
Proof.
  destruct l as [|z l]; simpl; [by intros ?%elem_of_nil|].
  destruct (String.eqb_spec z x) as [->|Hne]; [by intros _ ->|done].
Qed.

Section AppsAndGames.
Import DataManager.
Context {T O : Type} (isoformat : T -> string).
Implicit Types (m : @manager T O) (info : game_info).

(** X10: [add_app] returns [False] exactly when the app is already listed,
    and then changes nothing; otherwise the app is appended at the end of
    the list.  Either way the app is listed afterwards, and a list without
    duplicates stays without duplicates. *)
Theorem add_app_result m app :
  ((add_app isoformat m app).1 = false <-> app ∈ apps m) /\
  ((add_app isoformat m app).1 = false -> (add_app isoformat m app).2 = m) /\
  ((add_app isoformat m app).1 = true ->
   apps (add_app isoformat m app).2 = apps m ++ [app]) /\
  app ∈ apps (add_app isoformat m app).2 /\
  (NoDup (apps m) -> NoDup (apps (add_app isoformat m app).2)).
Proof.
  unfold add_app. destruct (PyMore.contains (apps m) app) eqn:Hc.
  - apply contains_elem_of in Hc. simpl. repeat split; done.
  - assert (Hnot : app ∉ apps m).
    { intros Hin%contains_elem_of. congruence. }
    simpl. split; [split; done|]. split; [done|]. split; [done|]. split.
    + apply elem_of_app. right. left.
    + intros Hnd. apply NoDup_app. split; [done|]. split; [|apply NoDup_singleton].
      intros x Hx Hx'%list_elem_of_singleton. by subst.
Qed.

(** X11: [delete_app] returns [True] exactly when the app is listed, and
    changes nothing otherwise.  After a successful call the list of apps is
    never empty: deleting the only app restores the default apps (so a
    default app that was the only one is listed again); otherwise, in a
    list without duplicates, the app is gone and every other app stays. *)
Theorem delete_app_result m app :
  ((delete_app isoformat m app).1 = true <-> app ∈ apps m) /\
  ((delete_app isoformat m app).1 = false -> (delete_app isoformat m app).2 = m) /\
  (app ∈ apps m -> apps (delete_app isoformat m app).2 <> []) /\
  (apps m = [app] -> apps (delete_app isoformat m app).2 = Config.DEFAULT_APPS) /\
  (NoDup (apps m) -> app ∈ apps m -> apps m <> [app] ->
   (app ∉ apps (delete_app isoformat m app).2) /\
   forall x, x <> app -> x ∈ apps (delete_app isoformat m app).2 <-> x ∈ apps m).
Proof.
  unfold delete_app. destruct (PyMore.contains (apps m) app) eqn:Hc; simpl.
  - apply contains_elem_of in Hc. split; [done|]. split; [done|]. split; [|split].
    + intros _. by destruct (PyMore.remove (apps m) app).
    + intros ->. simpl. by rewrite String.eqb_refl.
    + intros Hnd _ Hne.
      destruct (PyMore.remove (apps m) app) as [|y l] eqn:Hr.
      { by apply remove_nil_inv in Hr. }
      simpl. rewrite <- Hr. split.
      * intros Hin%remove_elem_of; [|done]. by destruct Hin.
      * intros x Hx. rewrite remove_elem_of by done. tauto.
  - assert (Hnot : app ∉ apps m).
    { intros Hin%contains_elem_of. congruence. }
    split; [split; done|]. split; [done|]. split; [done|]. split.
    + intros Heq. exfalso. apply Hnot. rewrite Heq. left.
    + done.
Qed.

(** X12: [add_game] returns [False] exactly when the game exists, and then
    changes nothing; otherwise the new game has the given cooldown, an
    empty pattern table, on which the matcher predicts nothing for any
    history, and a non-empty result format (["Big"; "Small"] when none or
    an empty one was given), and the other games are as before. *)
Theorem add_game_result m game cd format :
  ((add_game isoformat m game cd format).1 = false
   <-> exists info, PyMore.lookup (games m) game = Some info) /\
  ((add_game isoformat m game cd format).1 = false ->
   (add_game isoformat m game cd format).2 = m) /\
  (PyMore.lookup (games m) game = None ->
   exists info fmt,
     PyMore.lookup (games (add_game isoformat m game cd format).2) game = Some info /\
     cooldown info = Some cd /\
     patterns info = Some [] /\
     (forall results, predict (default [] (patterns info)) results = None) /\
     result_format info = Some fmt /\ fmt <> [] /\
     (format = None \/ format = Some [] -> fmt = ["Big"; "Small"]) /\
     (forall f, format = Some f -> f <> [] -> fmt = f) /\
     forall g, g <> game ->
       PyMore.lookup (games (add_game isoformat m game cd format).2) g
       = PyMore.lookup (games m) g).
Proof.
  unfold add_game, PyMore.mem.
  destruct (PyMore.lookup (games m) game) as [info|] eqn:Hg; simpl.
  - split; [split; [by exists info | done]|]. split; done.
  - split; [split; [done | by intros [? ?]]|]. split; [done|]. intros _.
    eexists _, _. split; [apply lookup_dict_set_eq|]. simpl.
    split; [done|]. split; [done|]. split; [done|]. split; [done|].
    split; [by destruct format as [[|]|]|]. split; [|split].
    + by intros [->| ->].
    + intros f -> Hf. by destruct f.
    + intros g Hne. by apply lookup_dict_set_ne.
Qed.

(** X13: [delete_game] returns [True] exactly when the game exists, and
    changes nothing otherwise.  After a successful call the games are not
    empty as long as the default games are not: deleting the only game
    restores the defaults; otherwise the game is gone and the other games
    are as before. *)
Theorem delete_game_result defaults m game :
  ((delete_game isoformat defaults m game).1 = true
   <-> exists info, PyMore.lookup (games m) game = Some info) /\
  ((delete_game isoformat defaults m game).1 = false ->
   (delete_game isoformat defaults m game).2 = m) /\
  ((delete_game isoformat defaults m game).1 = true -> defaults <> [] ->
   games (delete_game isoformat defaults m game).2 <> []) /\
  (forall info, games m = [(game, info)] ->
     games (delete_game isoformat defaults m game).2 = defaults) /\
  ((delete_game isoformat defaults m game).1 = true ->
   Py.dict_wf (games m) -> PyMore.del (games m) game <> [] ->
   PyMore.lookup (games (delete_game isoformat defaults m game).2) game = None /\
   forall g, g <> game ->
     PyMore.lookup (games (delete_game isoformat defaults m game).2) g
     = PyMore.lookup (games m) g).
Proof.
  unfold delete_game, PyMore.mem.
  destruct (PyMore.lookup (games m) game) as [info|] eqn:Hg; simpl.
  - split; [split; [by exists info | done]|]. split; [done|]. split; [|split].
    + intros _ Hd. by destruct (PyMore.del (games m) game).
    + intros info' Heq. rewrite Heq. simpl. by rewrite String.eqb_refl.
    + intros _ Hwf Hne.
      assert (Htr : Py.truthy (PyMore.del (games m) game) = true)
        by (by destruct (PyMore.del (games m) game)).
      rewrite Htr. simpl. split; [by apply lookup_del_eq|].
      intros g Hgne. by apply lookup_del_ne.
  - split; [split; [done | by intros [? ?]]|]. split; [done|]. split; [done|].
    split; [|done]. intros info Heq. rewrite Heq in Hg. simpl in Hg.
    by rewrite String.eqb_refl in Hg.
Qed.

(** X14: [set_cooldown] returns [True] exactly when the game exists and
    then stores the cooldown; it never changes the pattern table or the
    result format of any game, so no prediction depends on it. *)
Theorem set_cooldown_result m game cd :
  ((set_cooldown isoformat m game cd).1 = true
   <-> exists info, PyMore.lookup (games m) game = Some info) /\
  ((set_cooldown isoformat m game cd).1 = false ->
   (set_cooldown isoformat m game cd).2 = m) /\
  (forall info, PyMore.lookup (games m) game = Some info ->
     exists info',
       PyMore.lookup (games (set_cooldown isoformat m game cd).2) game = Some info' /\
       cooldown info' = Some cd) /\
  (forall g info, PyMore.lookup (games m) g = Some info ->
     exists info',
       PyMore.lookup (games (set_cooldown isoformat m game cd).2) g = Some info' /\
       patterns info' = patterns info /\
       result_format info' = result_format info).
Proof.
  unfold set_cooldown.
  destruct (PyMore.lookup (games m) game) as [info|] eqn:Hg; simpl.
  - split; [split; [by exists info | done]|]. split; [done|]. split.
    + intros info' [= <-]. eexists. split; [apply lookup_dict_set_eq | done].
    + intros g info' Hg'. destruct (decide (g = game)) as [->|Hne].
      * eexists. split; [apply lookup_dict_set_eq|]. by simplify_eq.
      * exists info'. by rewrite lookup_dict_set_ne.
  - split; [split; [done | by intros [? ?]]|]. split; [done|]. split; [done|].
    intros g info Hg'. by exists info.
Qed.

End AppsAndGames.

(** ** The keyboards of [utils/helpers.py] *)

Lemma rows_of_two_pair_ind (P : list Helpers.button -> Prop) :
  P [] -> (forall b, P [b]) -> (forall b b' bs, P bs -> P (b :: b' :: bs)) ->
  forall bs, P bs.
Proof.
  intros Hnil Hone Hstep bs.
  assert (H : P bs /\ forall b, P (b :: bs)); [|by destruct H].
  induction bs as [|b bs [IH1 IH2]]; [by split|].
  split; [apply IH2|]. intros b'. by apply Hstep.
Qed.

Lemma rows_of_two_concat bs : concat (Helpers.rows_of_two bs) = bs.
Proof.
  induction bs as [| |b b' bs IH] using rows_of_two_pair_ind; [done..|].
  simpl in *. by rewrite IH.
Qed.

Lemma rows_of_two_length bs :
  length (Helpers.rows_of_two bs) = (length bs + 1) / 2.
Proof.
  induction bs as [| |b b' bs IH] using rows_of_two_pair_ind; [done..|].
  cbn [Helpers.rows_of_two length]. rewrite IH.
  replace (S (S (length bs)) + 1) with ((length bs + 1) + 1 * 2) by lia.
  rewrite Nat.div_add by lia. lia.
Qed.

Lemma rows_of_two_rows bs i row :
  Helpers.rows_of_two bs !! i = Some row ->
  length row = 2 \/ (length row = 1 /\ S i = length (Helpers.rows_of_two bs)).
Proof.
  revert i. induction bs as [| |b b' bs IH] using rows_of_two_pair_ind; intros i.
  - done.
  - destruct i; simpl; [|done]. intros [= <-]. by right.
  - destruct i as [|i]; cbn [Helpers.rows_of_two]; simpl.
    + intros [= <-]. by left.
    + intros Hi. destruct (IH i Hi) as [?|[? ?]]; [by left|]. right. split; [done|]. lia.
Qed.

Lemma row_step_fold mk n l : forall s keyboard,
  s + length l = n ->
  fold_left (Helpers.row_step mk n) (zip (seq s (length l)) l) (keyboard, [])
  = (keyboard ++ Helpers.rows_of_two (mk <$> l), []) /\
  forall b, l <> [] ->
    fold_left (Helpers.row_step mk n) (zip (seq s (length l)) l) (keyboard, [b])
    = (keyboard ++ Helpers.rows_of_two (b :: (mk <$> l)), []).
Proof.
  induction l as [|x l IH]; intros s keyboard Hn.
  - split; [simpl; by rewrite app_nil_r | done].
  - cbn [length seq zip zip_with fold_left]. split.
    + unfold Helpers.row_step at 2. cbn [app length Nat.eqb orb].
      destruct l as [|y l].
      * replace (s =? n - 1)%nat with true
          by (symmetry; apply Nat.eqb_eq; simpl in Hn; lia).
        done.
      * replace (s =? n - 1)%nat with false
          by (symmetry; apply Nat.eqb_neq; simpl in Hn; lia).
        destruct (IH (S s) keyboard) as [_ IH2]; [simpl in *; lia|].
        by rewrite IH2.
    + intros b _. unfold Helpers.row_step at 2. cbn [app length Nat.eqb orb].
      destruct (IH (S s) (keyboard ++ [[b; mk x]])) as [IH1 _]; [simpl in *; lia|].
      rewrite IH1. by rewrite <- app_assoc.
Qed.

Lemma row_step_enumerate mk l :
  fold_left (Helpers.row_step mk (length l)) (PyMore.enumerate l) ([], [])
  = (Helpers.rows_of_two (mk <$> l), []).
Proof.
  unfold PyMore.enumerate.
  destruct (row_step_fold mk (length l) l 0 [] eq_refl) as [H _]. exact H.
Qed.

(** X15: without apps [build_app_selector] shows the single button
    "No apps available"; otherwise its rows, read in order, are one button
    per app in the order of the list, each labelled with the app and
    carrying ["app_" + app]; there are (n+1)/2 rows, every row has two
    buttons except that the last one has a single button when the number
    of apps is odd. *)
Theorem build_app_selector_rows {T O} (m : @DataManager.manager T O) :
  (DataManager.apps m = [] ->
   Helpers.build_app_selector m
   = [[ {| Helpers.text := "No apps available";
           Helpers.callback_data := "none_app" |} ]]) /\
  (DataManager.apps m <> [] ->
   concat (Helpers.build_app_selector m)
   = Helpers.app_button <$> DataManager.apps m /\
   length (Helpers.build_app_selector m) = (length (DataManager.apps m) + 1) / 2 /\
   forall i row, Helpers.build_app_selector m !! i = Some row ->
     length row = 2 \/
     (length row = 1 /\ S i = length (Helpers.build_app_selector m))).
Proof.
  unfold Helpers.build_app_selector, DataManager.get_all_apps.
  destruct (DataManager.apps m) as [|a l] eqn:Happs; [by split|].
  split; [done|]. intros _. cbn [Py.truthy negb].
  change (fun app : string =>
            {| Helpers.text := app; Helpers.callback_data := "app_" +:+ app |})
    with Helpers.app_button.
  rewrite row_step_enumerate. split; [apply rows_of_two_concat|]. split.
  - by rewrite rows_of_two_length, length_fmap.
  - apply rows_of_two_rows.
Qed.

(** X16: the keyboard of [build_game_selector] ends with the row of the
    back button; before it stands the single button "No games available"
    when there is no game, and otherwise one button per game in the order
    of the games, two to a row, a last single one alone, each carrying
    ["game_" + app + "_" + game]. *)
Theorem build_game_selector_rows {T O} (m : @DataManager.manager T O) app :
  exists rows back,
    Helpers.build_game_selector m app = rows ++ [[back]] /\
    Helpers.callback_data back = "back_to_apps" /\
    (DataManager.games m = [] ->
     rows = [[ {| Helpers.text := "No games available";
                  Helpers.callback_data := "none" |} ]]) /\
    (DataManager.games m <> [] ->
     concat rows = Helpers.game_button app <$> (DataManager.games m).*1 /\
     length rows = (length (DataManager.games m) + 1) / 2 /\
     forall i row, rows !! i = Some row ->
       length row = 2 \/ (length row = 1 /\ S i = length rows)).
Proof.
  unfold Helpers.build_game_selector, DataManager.get_all_games.
  eexists _, _. split; [reflexivity|]. split; [done|].
  destruct (DataManager.games m) as [|g l] eqn:Hgames; [by split|].
  split; [done|]. intros _.
  change (fun game : string =>
            {| Helpers.text := game;
               Helpers.callback_data := "game_" +:+ app +:+ "_" +:+ game |})
    with (Helpers.game_button app).
  cbn [fmap list_fmap Py.truthy negb].
  change (g.1 :: list_fmap _ _ fst l) with (((g :: l) : Py.dict _).*1).
  rewrite row_step_enumerate. split; [apply rows_of_two_concat|]. split.
  - rewrite rows_of_two_length, length_fmap. cbn [length]. by rewrite length_fmap.
  - apply rows_of_two_rows.
Qed.

Lemma build_app_selector_rows_witness :
  concat (Helpers.build_app_selector Sample.state)
  = Helpers.app_button <$> DataManager.apps Sample.state.
Proof.
  apply (proj2 (build_app_selector_rows Sample.state)). discriminate.
Defined.

(** ** What [_save_data] leaves in memory *)

Section Saving.
Import DataManager.
Context {T O : Type} (isoformat : T -> string).
Implicit Types (m : @manager T O) (u : @user T O).

Lemma serialise_idem (s : @stamp T) :
  serialise isoformat (serialise isoformat s) = serialise isoformat s.
Proof. by destruct s. Qed.

Lemma save_record_idem (p : @pred_record T) :
  save_record isoformat (save_record isoformat p) = save_record isoformat p.
Proof.
  destruct p as [a g pr c [s|]]; unfold save_record; simpl; [|done].
  by rewrite serialise_idem.
Qed.

Lemma save_last_idem (p : @last_prediction T) :
  save_last isoformat (save_last isoformat p) = save_last isoformat p.
Proof.
  destruct p as [pr [s|]]; unfold save_last; simpl; [|done].
  by rewrite serialise_idem.
Qed.

Lemma save_user_idem u :
  save_user isoformat (save_user isoformat u) = save_user isoformat u.
Proof.
  destruct u as [ph lr lp o]. unfold save_user. simpl. f_equal.
  - destruct ph as [l|]; simpl; [|done]. f_equal.
    rewrite <- list_fmap_compose. apply list_fmap_ext.
    intros i p _. apply save_record_idem.
  - destruct lp as [l|]; simpl; [|done]. f_equal.
    rewrite <- list_fmap_compose. apply list_fmap_ext.
    intros i [k p] _. simpl. unfold prod_map. simpl. by rewrite save_last_idem.
Qed.

(** X17: in memory, saving twice is saving once; a save changes neither the
    games nor the apps nor the settings nor any stored history, and after
    it no entry of a prediction history carries a [datetime] any more. *)
Theorem save_data_idempotent m :
  _save_data isoformat (_save_data isoformat m) = _save_data isoformat m /\
  games (_save_data isoformat m) = games m /\
  apps (_save_data isoformat m) = apps m /\
  (forall user_id app game,
     get_user_results (_save_data isoformat m) user_id app game
     = get_user_results m user_id app game) /\
  (forall k u history p t,
     (k, u) ∈ users (_save_data isoformat m) ->
     prediction_history u = Some history ->
     p ∈ history ->
     pr_timestamp p <> Some (Datetime t)).
Proof.
  split; [|split; [done|split; [done|split]]].
  - unfold _save_data. simpl. f_equal.
    rewrite <- list_fmap_compose. apply list_fmap_ext.
    intros i [k u] _. unfold prod_map. simpl. by rewrite save_user_idem.
  - intros. apply get_user_results_save.
  - intros k u history p t Hin Hh Hp. simpl in Hin.
    apply list_elem_of_fmap in Hin as ([k0 u0] & Heq & _).
    unfold prod_map in Heq. simpl in Heq. injection Heq as -> ->.
    simpl in Hh. destruct (prediction_history u0) as [l|]; [|done].
    simpl in Hh. injection Hh as <-.
    apply list_elem_of_fmap in Hp as (p0 & -> & _).
    simpl. by destruct (pr_timestamp p0) as [[?|?]|].
Qed.

End Saving.

Lemma add_app_result_witness :
  DataManager.apps (DataManager.add_app Sample.iso Sample.state "Stake").2
  = DataManager.apps Sample.state ++ ["Stake"].
Proof.
  apply (proj1 (proj2 (proj2 (add_app_result Sample.iso Sample.state "Stake")))).
  reflexivity.
Defined.

Lemma delete_app_result_witness :
  ("Bet365" ∉ DataManager.apps
                (DataManager.delete_app Sample.iso Sample.state "Bet365").2) /\
  forall x, x <> "Bet365" ->
    x ∈ DataManager.apps (DataManager.delete_app Sample.iso Sample.state "Bet365").2
    <-> x ∈ DataManager.apps Sample.state.
Proof.
  apply (proj2 (proj2 (proj2 (proj2
           (delete_app_result Sample.iso Sample.state "Bet365"))))).
  - unfold Sample.state, Config.DEFAULT_APPS. simpl.
    repeat (apply NoDup_cons; split;
            [intros Hin; repeat (apply elem_of_cons in Hin as [Hin|Hin];
                                 [discriminate|]); by apply elem_of_nil in Hin|]).
    apply NoDup_nil_2.
  - right. left.
  - discriminate.
Defined.

Lemma add_game_result_witness :
  exists info fmt,
    PyMore.lookup
      (DataManager.games
         (DataManager.add_game Sample.iso Sample.state "K3" 60 None).2) "K3"
    = Some info /\
    DataManager.cooldown info = Some 60%Z /\
    DataManager.patterns info = Some [] /\
    (forall results, predict (default [] (DataManager.patterns info)) results = None) /\
    DataManager.result_format info = Some fmt /\ fmt <> [] /\
    (@None (list string) = None \/ @None (list string) = Some [] ->
     fmt = ["Big"; "Small"]) /\
    (forall f, @None (list string) = Some f -> f <> [] -> fmt = f) /\
    forall g, g <> "K3" ->
      PyMore.lookup
        (DataManager.games
           (DataManager.add_game Sample.iso Sample.state "K3" 60 None).2) g
      = PyMore.lookup (DataManager.games Sample.state) g.
Proof.
  apply (proj2 (proj2 (add_game_result Sample.iso Sample.state "K3" 60 None))).
  reflexivity.
Defined.

Lemma delete_game_result_witness :
  DataManager.games
    (DataManager.delete_game Sample.iso [("K3", Sample.wingo)] Sample.state "WINGO").2
  = [("K3", Sample.wingo)].
Proof.
  apply (proj1 (proj2 (proj2 (proj2
           (delete_game_result Sample.iso [("K3", Sample.wingo)]
              Sample.state "WINGO")))) Sample.wingo).
  reflexivity.
Defined.

Lemma set_cooldown_result_witness :
  exists info',
    PyMore.lookup
      (DataManager.games
         (DataManager.set_cooldown Sample.iso Sample.state "WINGO" 30).2) "WINGO"
    = Some info' /\
    DataManager.patterns info' = DataManager.patterns Sample.wingo /\
    DataManager.result_format info' = DataManager.result_format Sample.wingo.
Proof.
  apply (proj2 (proj2 (proj2
           (set_cooldown_result Sample.iso Sample.state "WINGO" 30)))
           "WINGO" Sample.wingo).
  reflexivity.
Defined.

(** ** Further properties of the matcher *)

Lemma matching_offsets_length results pattern :
  pattern <> [] ->
  length (Spec.matching_offsets results pattern) <= length results.
Proof.
  intros Hne. unfold Spec.matching_offsets. case_decide as Hlen; [simpl; lia|].
  etrans; [apply length_filter|]. rewrite length_seq.
  destruct pattern; [done|]. simpl in *. lia.
Qed.

(** X18: the matcher returns at most one match per pattern and offset:
    the number of matches is at most the number of patterns times the
    length of the history. *)
Theorem find_matching_patterns_length patterns results :
  length (find_matching_patterns patterns results)
  <= length patterns * length results.
Proof.
  rewrite find_matching_patterns_bind.
  induction patterns as [|[k o] patterns IH]; [done|].
  rewrite bind_cons, length_app. unfold Spec.contribution at 1.
  rewrite length_replicate. simpl.
  pose proof (matching_offsets_length results (Py.split "," k) (split_not_nil _ _)).
  lia.
Qed.

(** X19: [predict] never invents a label: a label it returns is the
    outcome of a pattern of the table that equals some window of the
    history. *)
Theorem predict_from_table patterns results l :
  predict patterns results = Some l ->
  exists k i,
    (k, l) ∈ patterns /\
    i + length (Py.split "," k) <= length results /\
    Py.slice results i (i + length (Py.split "," k)) = Py.split "," k.
Proof.
  intros Hl.
  assert (Hne : find_matching_patterns patterns results <> []).
  { intros Hnil. unfold predict in Hl. by rewrite Hnil in Hl. }
  destruct (get_best_prediction_Some _ Hne) as (best & Hb & Hin).
  unfold predict in Hl. assert (best = l) as -> by congruence.
  apply find_matching_patterns_elem in Hin as (k & i & Hk & Hw).
  exists k, i. split; [done|]. split; [apply Hw|].
  apply slice_eq_window; [apply Hw | done].
Qed.

Lemma predict_from_table_witness :
  exists k i,
    (k, "Small") ∈ [("Big,Small", "Small"); ("Small,Big", "Big")] /\
    i + length (Py.split "," k) <= length ["Big"; "Small"; "Big"] /\
    Py.slice ["Big"; "Small"; "Big"] i (i + length (Py.split "," k))
    = Py.split "," k.
Proof.
  apply (predict_from_table [("Big,Small", "Small"); ("Small,Big", "Big")]
           ["Big"; "Small"; "Big"] "Small").
  by vm_compute.
Defined.
